(** * US-visa pipeline: the data-validation and model-evaluation stages

    A shallow embedding of

    - [us_visa/components/data_validation.py]  (class [DataValidation])
    - [us_visa/components/model_evaluation.py] (class [ModelEvaluation])

    Python exceptions are values of [exn]; a method that can raise returns a
    [result].  Every [try: ... except Exception as e: raise USvisaException(e, sys)]
    block of the source is one application of [try_except].  The collaborators
    the two classes call but do not define (pandas' CSV reader, the YAML
    reader, the unpickler, the predictor, scikit-learn's metric) and the
    constants they import are the fields of a [World].

    The [logging.info] calls write to the log file only; they return nothing
    and are left out. *)

From Stdlib Require Import ZArith String List Bool Floats.PrimFloat.
From Stdlib Require Import Floats.SpecFloat Floats.FloatOps.
From stdpp Require Import gmap strings list.


(** ** Exceptions and results *)

Module Py.

(** The exceptions that reach an [except Exception] clause.  [KeyError] and
    [TypeError] are raised by the subscripts and the arithmetic written in
    the two classes; [LibraryError] stands for whatever a collaborator
    raises (a missing file, a parse error, a failing predictor, a metric
    that rejects its arguments).  [USvisaException e] is
    [USvisaException(e, sys)]: it keeps the exception it was built from. *)
Inductive exn : Type :=
  | KeyError (key : string)
  | TypeError (msg : string)
  | LibraryError (msg : string)
  | USvisaException (error : exn).

Inductive result (A : Type) : Type :=
  | Returns (a : A)
  | Raises (e : exn).
Arguments Returns {A} a.
Arguments Raises {A} e.

#[global] Instance result_ret : MRet result := fun A a => Returns a.
#[global] Instance result_bind : MBind result := fun A B k m =>
  match m with
  | Returns a => k a
  | Raises e => Raises e
  end.

(** [try: body  except Exception as e: raise USvisaException(e, sys)] *)
Definition try_except {A} (body : result A) : result A :=
  match body with
  | Returns a => Returns a
  | Raises e => Raises (USvisaException e)
  end.

(** [d[key]] on a dict. *)
Definition dict_getitem {V} (d : gmap string V) (key : string) : result V :=
  match d !! key with
  | Some v => Returns v
  | None => Raises (KeyError key)
  end.

End Py.
Import Py.

(** ** Data frames *)

Module Pandas.

(** A cell as [read_csv] parses it, with the dtype of its column: a signed
    64-bit integer ([int64], from -2^63 up to 2^63-1), text (a cell of an
    [object] column), an unsigned 64-bit integer ([uint64], the dtype of an
    integer column with a value of 2^63 or more), a double ([float64]; a
    missing value is the double NaN), or a boolean. *)
Inductive cell : Type :=
  | VInt (z : Z)
  | VStr (s : string)
  | VUInt (z : Z)
  | VFloat (f : float)
  | VBool (b : bool).

Abbreviation Series := (list cell).

(** A frame is its columns, left to right, each with its label.
    [read_csv] renames repeated header names, so the labels of a loaded
    frame are pairwise distinct; [getitem] below returns the column of the
    first matching label. *)
Abbreviation DataFrame := (list (string * Series)).

(** [df.columns] *)
Definition columns (df : DataFrame) : list string := map fst df.

(** [df[key]] *)
Fixpoint getitem (df : DataFrame) (key : string) : result Series :=
  match df with
  | [] => Raises (KeyError key)
  | (label, values) :: rest =>
      if bool_decide (label = key) then Returns values else getitem rest key
  end.

(** [df[key] = values]: overwrite the column in place when the label is
    there, append a new last column otherwise. *)
Definition setitem (df : DataFrame) (key : string) (values : Series) : DataFrame :=
  if bool_decide (key ∈ columns df)
  then map (fun col => if bool_decide (fst col = key) then (fst col, values) else col) df
  else df ++ [(key, values)].

(** [df.drop(key, axis=1)]: a new frame without the columns labelled [key]. *)
Definition drop (df : DataFrame) (key : string) : result DataFrame :=
  if bool_decide (key ∈ columns df)
  then Returns (filter (fun col => fst col ≠ key) df)
  else Raises (KeyError ("['" +:+ key +:+ "'] not found in axis")).

(** The signed 64-bit integer that an integer becomes by wrap-around. *)
Definition int64 (z : Z) : Z := ((z + 2 ^ 63) mod 2 ^ 64 - 2 ^ 63)%Z.

(** The unsigned 64-bit integer that an integer becomes by wrap-around. *)
Definition uint64 (z : Z) : Z := (z mod 2 ^ 64)%Z.

(** [float(n)]: the double nearest to [n], ties to even. *)
Definition float_of_Z (n : Z) : float :=
  SF2Prim (binary_normalize prec emax n 0 false).

(** [n - c] for one cell and a Python int [n] from [0] up to [2^63-1], which
    every dtype below holds (a calendar year is one): the subtraction of the
    cell's dtype.  Integer columns wrap around without an error, a double
    column subtracts in IEEE arithmetic with [n] converted, [True] and
    [False] count as [1] and [0] and give an [int64], text raises. *)
Definition cell_rsub (n : Z) (c : cell) : result cell :=
  match c with
  | VInt z => Returns (VInt (int64 (n - z)))
  | VUInt z => Returns (VUInt (uint64 (n - z)))
  | VFloat f => Returns (VFloat (float_of_Z n - f))
  | VBool b => Returns (VInt (int64 (n - Z.b2z b)))
  | VStr _ => Raises (TypeError "unsupported operand type(s) for -: 'int' and 'str'")
  end.

(** [n - s], row by row; one text cell makes the whole subtraction raise. *)
Fixpoint series_rsub (n : Z) (s : Series) : result Series :=
  match s with
  | [] => Returns []
  | c :: rest =>
      c' ← cell_rsub n c;
      rest' ← series_rsub n rest;
      Returns (c' :: rest')
  end.

(** [s.replace(mapping)] with a dict from labels to integers: a text cell
    whose value is a key of the dict becomes the mapped integer, every other
    cell (text that is no key, a number, a boolean, a missing value)
    stays. *)
Definition replace_cell (mapping : gmap string Z) (c : cell) : cell :=
  match c with
  | VStr s => match mapping !! s with
              | Some z => VInt z
              | None => c
              end
  | _ => c
  end.

Definition replace (mapping : gmap string Z) (s : Series) : Series :=
  map (replace_cell mapping) s.

End Pandas.
Import Pandas.

(** ** Collaborators and constants *)

(** The parsed schema document: a dict from keys to lists.  Only the length
    of ["columns"] is read, so its entries are kept by name. *)
Abbreviation SchemaConfig := (gmap string (list string)).

(** Everything the two classes import and do not define.  A [World] is fixed
    for one pipeline run: reading the same path twice gives the same frame. *)
Record World : Type := {
  (** [us_visa.entity.estimator.USvisaModel] *)
  USvisaModel : Type;
  (** [us_visa.entity.config_entity.ModelEvaluationConfig] *)
  ModelEvaluationConfig : Type;
  (** [pd.read_csv(path)] *)
  read_csv : string -> result DataFrame;
  (** [us_visa.utils.main_utils.read_yaml_file(file_path=path)] *)
  read_yaml_file : string -> result SchemaConfig;
  (** [us_visa.utils.main_utils.load_object(file_path=path)] *)
  load_object : string -> result USvisaModel;
  (** [model.predict(x)] *)
  predict : USvisaModel -> DataFrame -> result Series;
  (** [sklearn.metrics.f1_score(y_true, y_pred)], called with its defaults;
      its floating-point arithmetic is scikit-learn's and is not modelled *)
  f1_score : Series -> Series -> result float;
  (** [us_visa.constants] *)
  SCHEMA_FILE_PATH : string;
  TARGET_COLUMN : string;
  CURRENT_YEAR : Z;
  (** [TargetValueMapping()._asdict()] *)
  TargetValueMapping_asdict : gmap string Z
}.

(** ** Entities *)

Module DataIngestionArtifact.
Record t : Type := { trained_file_path : string; test_file_path : string }.
End DataIngestionArtifact.

Module DataValidationConfig.
Record t : Type := { drift_report_file_path : string }.
End DataValidationConfig.

Module DataValidationArtifact.
Record t : Type := {
  validation_status : bool;
  message : string;
  drift_report_file_path : string
}.
End DataValidationArtifact.

Module ModelTrainerArtifact.
Record t : Type := { trained_model_file_path : string }.
End ModelTrainerArtifact.

Module ModelEvaluationArtifact.
Record t : Type := {
  is_model_accepted : bool;
  trained_model_path : string;
  changed_accuracy : float
}.
End ModelEvaluationArtifact.

(** ** [data_validation.py] *)

Module DataValidation.
Section WithWorld.
Variable W : World.

(** The attributes [__init__] sets. *)
Record t : Type := {
  data_ingestion_artifact : DataIngestionArtifact.t;
  data_validation_config : DataValidationConfig.t;
  _schema_config : SchemaConfig
}.

Definition __init__ (data_ingestion_artifact : DataIngestionArtifact.t)
    (data_validation_config : DataValidationConfig.t) : result t :=
  try_except (
    schema ← read_yaml_file W (SCHEMA_FILE_PATH W);
    mret {| data_ingestion_artifact := data_ingestion_artifact;
            data_validation_config := data_validation_config;
            _schema_config := schema |}).

Definition validate_number_of_columns (self : t) (dataframe : DataFrame) : result bool :=
  try_except (
    expected ← dict_getitem (_schema_config self) "columns";
    let status := bool_decide (length (columns dataframe) = length expected) in
    mret status).

(** One [for column in required: if column not in dataframe_columns:
    missing.append(column)] loop, started with the list [missing]. *)
Fixpoint collect_missing (dataframe_columns required missing : list string) : list string :=
  match required with
  | [] => missing
  | column :: rest =>
      if bool_decide (column ∈ dataframe_columns)
      then collect_missing dataframe_columns rest missing
      else collect_missing dataframe_columns rest (missing ++ [column])
  end.

(** The body of [is_column_exist] up to its [return]: the two local lists
    [missing_numerical_columns] and [missing_categorical_columns]. *)
Definition is_column_exist_missing (self : t) (df : DataFrame)
    : result (list string * list string) :=
  let dataframe_columns := columns df in
  numerical ← dict_getitem (_schema_config self) "numerical_columns";
  let missing_numerical_columns := collect_missing dataframe_columns numerical [] in
  categorical ← dict_getitem (_schema_config self) "categorical_columns";
  let missing_categorical_columns := collect_missing dataframe_columns categorical [] in
  mret (missing_numerical_columns, missing_categorical_columns).

Definition is_column_exist (self : t) (df : DataFrame) : result bool :=
  try_except (
    missing ← is_column_exist_missing self df;
    let missing_numerical_columns := fst missing in
    let missing_categorical_columns := snd missing in
    mret (negb ((0 <? length missing_categorical_columns)%nat
                || (0 <? length missing_numerical_columns)%nat))).

Definition read_data (file_path : string) : result DataFrame :=
  try_except (read_csv W file_path).

Definition initiate_data_validation (self : t) : result DataValidationArtifact.t :=
  try_except (
    let validation_error_msg := "" in
    train_df ← read_data (DataIngestionArtifact.trained_file_path (data_ingestion_artifact self));
    test_df ← read_data (DataIngestionArtifact.test_file_path (data_ingestion_artifact self));
    status_train_cols ← validate_number_of_columns self train_df;
    let validation_error_msg :=
      if negb status_train_cols
      then validation_error_msg +:+ "Columns are missing in training dataframe. "
      else validation_error_msg in
    status_test_cols ← validate_number_of_columns self test_df;
    let validation_error_msg :=
      if negb status_test_cols
      then validation_error_msg +:+ "Columns are missing in test dataframe. "
      else validation_error_msg in
    status_train_exist ← is_column_exist self train_df;
    let validation_error_msg :=
      if negb status_train_exist
      then validation_error_msg
           +:+ "Required numerical/categorical columns are missing in training dataframe. "
      else validation_error_msg in
    status_test_exist ← is_column_exist self test_df;
    let validation_error_msg :=
      if negb status_test_exist
      then validation_error_msg
           +:+ "Required numerical/categorical columns are missing in test dataframe. "
      else validation_error_msg in
    let validation_status := (String.length validation_error_msg =? 0)%nat in
    let final_validation_message :=
      if validation_status
      then "Data validation successful. No schema or column issues found."
      else "Data validation failed due to: " +:+ validation_error_msg in
    mret {| DataValidationArtifact.validation_status := validation_status;
            DataValidationArtifact.message := final_validation_message;
            DataValidationArtifact.drift_report_file_path :=
              DataValidationConfig.drift_report_file_path (data_validation_config self) |}).

End WithWorld.
End DataValidation.

(** ** [model_evaluation.py] *)

Module ModelEvaluation.
Section WithWorld.
Variable W : World.

Record EvaluateModelResponse : Type := {
  trained_model_f1_score : float;
  best_model_f1_score : float;
  is_model_accepted : bool;
  difference : float
}.

(** The attributes [__init__] sets. *)
Record t : Type := {
  model_eval_config : ModelEvaluationConfig W;
  data_ingestion_artifact : DataIngestionArtifact.t;
  model_trainer_artifact : ModelTrainerArtifact.t
}.

Definition __init__ (model_eval_config : ModelEvaluationConfig W)
    (data_ingestion_artifact : DataIngestionArtifact.t)
    (model_trainer_artifact : ModelTrainerArtifact.t) : result t :=
  try_except (
    mret {| model_eval_config := model_eval_config;
            data_ingestion_artifact := data_ingestion_artifact;
            model_trainer_artifact := model_trainer_artifact |}).

Definition evaluate_model (self : t) : result EvaluateModelResponse :=
  try_except (
    test_df ← read_csv W (DataIngestionArtifact.test_file_path (data_ingestion_artifact self));
    yr_of_estab ← getitem test_df "yr_of_estab";
    company_age ← series_rsub (CURRENT_YEAR W) yr_of_estab;
    let test_df := setitem test_df "company_age" company_age in
    x ← drop test_df (TARGET_COLUMN W);
    y ← getitem test_df (TARGET_COLUMN W);
    let target_mapping := TargetValueMapping_asdict W in
    let y := replace target_mapping y in
    trained_model_obj ←
      load_object W (ModelTrainerArtifact.trained_model_file_path (model_trainer_artifact self));
    y_pred_trained_model ← predict W trained_model_obj x;
    trained_model_f1_score ← f1_score W y y_pred_trained_model;
    let best_model_f1_score : option float := None in
    let is_model_accepted := false in
    let difference := 0%float in
    let is_model_accepted := true in
    let best_model_f1_score := trained_model_f1_score in
    let difference := 0%float in
    let result := {| trained_model_f1_score := trained_model_f1_score;
                     best_model_f1_score := best_model_f1_score;
                     is_model_accepted := is_model_accepted;
                     difference := difference |} in
    mret result).

Definition initiate_model_evaluation (self : t) : result ModelEvaluationArtifact.t :=
  try_except (
    evaluate_model_response ← evaluate_model self;
    let model_evaluation_artifact :=
      {| ModelEvaluationArtifact.is_model_accepted := is_model_accepted evaluate_model_response;
         ModelEvaluationArtifact.trained_model_path :=
           ModelTrainerArtifact.trained_model_file_path (model_trainer_artifact self);
         ModelEvaluationArtifact.changed_accuracy := difference evaluate_model_response |} in
    mret model_evaluation_artifact).

End WithWorld.
End ModelEvaluation.

(** ** Vocabulary of the properties *)

Module Properties.
Import DataValidation.

(** The phrases of the four sub-checks that failed, in the order train-count,
    test-count, train-exist, test-exist.  An argument is the boolean the
    sub-check returned. *)
Definition failure_phrases (train_count test_count train_exist test_exist : bool)
    : list string :=
  (if train_count then [] else ["Columns are missing in training dataframe. "])
  ++ (if test_count then [] else ["Columns are missing in test dataframe. "])
  ++ (if train_exist then []
      else ["Required numerical/categorical columns are missing in training dataframe. "])
  ++ (if test_exist then []
      else ["Required numerical/categorical columns are missing in test dataframe. "]).

Definition success_message : string :=
  "Data validation successful. No schema or column issues found.".

Definition failure_prefix : string := "Data validation failed due to: ".

(** The message as a bare concatenation of the failure phrases. *)
Definition bare_message (train_count test_count train_exist test_exist : bool) : string :=
  if train_count && test_count && train_exist && test_exist
  then success_message
  else String.concat "" (failure_phrases train_count test_count train_exist test_exist).

(** The message with the fixed prefix in front of the failure phrases. *)
Definition prefixed_message (train_count test_count train_exist test_exist : bool) : string :=
  if train_count && test_count && train_exist && test_exist
  then success_message
  else failure_prefix
       +:+ String.concat "" (failure_phrases train_count test_count train_exist test_exist).

(** The four sub-checks of a validator on its two loaded frames. *)
Definition sub_checks (self : DataValidation.t) (train_df test_df : DataFrame)
    (train_count test_count train_exist test_exist : bool) : Prop :=
  validate_number_of_columns self train_df = Returns train_count
  ∧ validate_number_of_columns self test_df = Returns test_count
  ∧ is_column_exist self train_df = Returns train_exist
  ∧ is_column_exist self test_df = Returns test_exist.

(** "The message of every produced artifact is the success string or the
    bare concatenation of the failure phrases." *)
Definition message_is_bare_concatenation (W : World) (self : DataValidation.t) : Prop :=
  ∀ train_df test_df train_count test_count train_exist test_exist a,
    read_csv W (DataIngestionArtifact.trained_file_path (data_ingestion_artifact self))
      = Returns train_df →
    read_csv W (DataIngestionArtifact.test_file_path (data_ingestion_artifact self))
      = Returns test_df →
    sub_checks self train_df test_df train_count test_count train_exist test_exist →
    initiate_data_validation W self = Returns a →
    DataValidationArtifact.message a
      = bare_message train_count test_count train_exist test_exist.

(** An internal step of the validation stage fails with [e]: one of the two
    dataset loads, or one of the three schema subscripts. *)
Inductive validation_step_fails (W : World) (self : DataValidation.t) : exn → Prop :=
  | train_load_fails e :
      read_csv W (DataIngestionArtifact.trained_file_path (data_ingestion_artifact self))
        = Raises e →
      validation_step_fails W self e
  | test_load_fails e :
      read_csv W (DataIngestionArtifact.test_file_path (data_ingestion_artifact self))
        = Raises e →
      validation_step_fails W self e
  | schema_access_fails key :
      key ∈ ["columns"; "numerical_columns"; "categorical_columns"] →
      _schema_config self !! key = None →
      validation_step_fails W self (KeyError key).

(** No cell of the column is text. *)
Definition no_text (s : Series) : Prop := ∀ text, VStr text ∉ s.

(** The cell of [company_age] beside a year cell that is not text: [n]
    minus the cell, in the arithmetic of the cell's dtype. *)
Definition age_cell (n : Z) (c : cell) : cell :=
  match c with
  | VInt z => VInt (int64 (n - z))
  | VUInt z => VUInt (uint64 (n - z))
  | VFloat f => VFloat (float_of_Z n - f)
  | VBool b => VInt (int64 (n - Z.b2z b))
  | VStr text => VStr text
  end.

Definition company_age_column (W : World) (yr_of_estab : Series) : Series :=
  map (age_cell (CURRENT_YEAR W)) yr_of_estab.

(** The features and the target that [evaluate_model] builds from a loaded
    test frame whose [yr_of_estab] column is [yr_of_estab]. *)
Definition augmented (W : World) (test_df : DataFrame) (yr_of_estab : Series) : DataFrame :=
  setitem test_df "company_age" (company_age_column W yr_of_estab).

Definition feature_matrix (W : World) (test_df : DataFrame) (yr_of_estab : Series)
    : DataFrame :=
  filter (fun col => fst col ≠ TARGET_COLUMN W) (augmented W test_df yr_of_estab).

Definition mapped_target (W : World) (target : Series) : Series :=
  map (replace_cell (TargetValueMapping_asdict W)) target.

(** What [evaluate_model] does once features [x] and mapped target [y] are
    built: load the model, predict, score, and fill the response. *)
Definition score_trained_model (W : World) (self : ModelEvaluation.t W)
    (x : DataFrame) (y : Series) : result ModelEvaluation.EvaluateModelResponse :=
  model ← load_object W (ModelTrainerArtifact.trained_model_file_path
                           (ModelEvaluation.model_trainer_artifact W self));
  predictions ← predict W model x;
  score ← f1_score W y predictions;
  mret {| ModelEvaluation.trained_model_f1_score := score;
          ModelEvaluation.best_model_f1_score := score;
          ModelEvaluation.is_model_accepted := true;
          ModelEvaluation.difference := 0%float |}.

(** The test frame of an evaluator is loaded and prepared: [x] is the frame
    with [company_age] set and the target dropped, [y] the target column. *)
Definition prepared (W : World) (self : ModelEvaluation.t W)
    (x : DataFrame) (y : Series) : Prop :=
  ∃ test_df yr_of_estab company_age,
    read_csv W (DataIngestionArtifact.test_file_path
                  (ModelEvaluation.data_ingestion_artifact W self)) = Returns test_df
    ∧ getitem test_df "yr_of_estab" = Returns yr_of_estab
    ∧ series_rsub (CURRENT_YEAR W) yr_of_estab = Returns company_age
    ∧ drop (setitem test_df "company_age" company_age) (TARGET_COLUMN W) = Returns x
    ∧ getitem (setitem test_df "company_age" company_age) (TARGET_COLUMN W) = Returns y.

(** "The [company_age] column handed to the predictor is [CURRENT_YEAR]
    minus the year, row by row, as integers." *)
Definition company_age_is_exact_difference (W : World) (self : ModelEvaluation.t W) : Prop :=
  ∀ test_df years x y,
    read_csv W (DataIngestionArtifact.test_file_path
                  (ModelEvaluation.data_ingestion_artifact W self)) = Returns test_df →
    getitem test_df "yr_of_estab" = Returns (map VInt years) →
    prepared W self x y →
    getitem x "company_age" = Returns (map (fun yr => VInt (CURRENT_YEAR W - yr)) years).

(** An internal step of the evaluation stage fails with [e]: the dataset
    load, the subscript of the year column, the subtraction, the drop of the
    target column (once it succeeds the target subscript cannot fail), the
    model load, the prediction, or the metric. *)
Inductive evaluation_step_fails (W : World) (self : ModelEvaluation.t W) : exn → Prop :=
  | dataset_load_fails e :
      read_csv W (DataIngestionArtifact.test_file_path
                    (ModelEvaluation.data_ingestion_artifact W self)) = Raises e →
      evaluation_step_fails W self e
  | year_column_fails test_df e :
      read_csv W (DataIngestionArtifact.test_file_path
                    (ModelEvaluation.data_ingestion_artifact W self)) = Returns test_df →
      getitem test_df "yr_of_estab" = Raises e →
      evaluation_step_fails W self e
  | subtraction_fails test_df yr_of_estab e :
      read_csv W (DataIngestionArtifact.test_file_path
                    (ModelEvaluation.data_ingestion_artifact W self)) = Returns test_df →
      getitem test_df "yr_of_estab" = Returns yr_of_estab →
      series_rsub (CURRENT_YEAR W) yr_of_estab = Raises e →
      evaluation_step_fails W self e
  | target_column_fails test_df yr_of_estab company_age e :
      read_csv W (DataIngestionArtifact.test_file_path
                    (ModelEvaluation.data_ingestion_artifact W self)) = Returns test_df →
      getitem test_df "yr_of_estab" = Returns yr_of_estab →
      series_rsub (CURRENT_YEAR W) yr_of_estab = Returns company_age →
      drop (setitem test_df "company_age" company_age) (TARGET_COLUMN W) = Raises e →
      evaluation_step_fails W self e
  | model_load_fails e :
      load_object W (ModelTrainerArtifact.trained_model_file_path
                       (ModelEvaluation.model_trainer_artifact W self)) = Raises e →
      evaluation_step_fails W self e
  | prediction_fails x y model e :
      prepared W self x y →
      load_object W (ModelTrainerArtifact.trained_model_file_path
                       (ModelEvaluation.model_trainer_artifact W self)) = Returns model →
      predict W model x = Raises e →
      evaluation_step_fails W self e
  | metric_fails x y model predictions e :
      prepared W self x y →
      load_object W (ModelTrainerArtifact.trained_model_file_path
                       (ModelEvaluation.model_trainer_artifact W self)) = Returns model →
      predict W model x = Returns predictions →
      f1_score W (replace (TargetValueMapping_asdict W) y) predictions = Raises e →
      evaluation_step_fails W self e.

End Properties.
Import Properties.

(** ** A small run

    A schema of three columns, one numerical and two categorical, and four
    files: a frame that fits the schema, one that lacks a column, one with the
    right number of columns under other names, and one whose year column holds
    text. *)

Module Demo.

Definition schema : SchemaConfig :=
  list_to_map [("columns", ["yr_of_estab"; "education"; "case_status"]);
               ("numerical_columns", ["yr_of_estab"]);
               ("categorical_columns", ["education"; "case_status"])].

Definition full_frame : DataFrame :=
  [("yr_of_estab", [VInt 2000; VInt 1990; VInt 2010; VInt 2020]);
   ("education", [VStr "Master"; VStr "Bachelor"; VStr "Master"; VStr "Doctorate"]);
   ("case_status", [VStr "Certified"; VStr "Denied"; VStr "Certified"; VStr "Certified"])].

Definition short_frame : DataFrame :=
  [("yr_of_estab", [VInt 2000; VInt 1990]);
   ("education", [VStr "Master"; VStr "Bachelor"])].

Definition renamed_frame : DataFrame :=
  [("yr_of_estab", [VInt 2000]);
   ("region", [VStr "West"]);
   ("case_status", [VStr "Denied"])].

Definition text_year_frame : DataFrame :=
  [("yr_of_estab", [VStr "unknown"]);
   ("education", [VStr "Master"]);
   ("case_status", [VStr "Denied"])].

(** The world whose metric answers [score]. *)
Definition world_scoring (score : float) : World := {|
  USvisaModel := unit;
  ModelEvaluationConfig := unit;
  read_csv := fun path =>
    if bool_decide (path = "full.csv") then Returns full_frame
    else if bool_decide (path = "short.csv") then Returns short_frame
    else if bool_decide (path = "renamed.csv") then Returns renamed_frame
    else if bool_decide (path = "text_year.csv") then Returns text_year_frame
    else Raises (LibraryError "No such file or directory");
  read_yaml_file := fun _ => Returns schema;
  load_object := fun path =>
    if bool_decide (path = "model.pkl") then Returns tt
    else Raises (USvisaException (LibraryError "No such file or directory"));
  predict := fun _ x => Returns [VInt 1; VInt 0; VInt 0; VInt 0];
  f1_score := fun _ _ => Returns score;
  SCHEMA_FILE_PATH := "config/schema.yaml";
  TARGET_COLUMN := "case_status";
  CURRENT_YEAR := 2024;
  TargetValueMapping_asdict := list_to_map [("Certified", 1%Z); ("Denied", 0%Z)]
|}.

Definition world : World := world_scoring 0.5%float.

Definition validator (train test : string) : DataValidation.t :=
  {| DataValidation.data_ingestion_artifact :=
       {| DataIngestionArtifact.trained_file_path := train;
          DataIngestionArtifact.test_file_path := test |};
     DataValidation.data_validation_config :=
       {| DataValidationConfig.drift_report_file_path := "artifact/drift/report.yaml" |};
     DataValidation._schema_config := schema |}.

Definition evaluator_scoring (score : float) (test model : string)
    : ModelEvaluation.t (world_scoring score) :=
  {| ModelEvaluation.model_eval_config := tt : ModelEvaluationConfig (world_scoring score);
     ModelEvaluation.data_ingestion_artifact :=
       {| DataIngestionArtifact.trained_file_path := "full.csv";
          DataIngestionArtifact.test_file_path := test |};
     ModelEvaluation.model_trainer_artifact :=
       {| ModelTrainerArtifact.trained_model_file_path := model |} |}.

Definition evaluator (test model : string) : ModelEvaluation.t world :=
  evaluator_scoring 0.5%float test model.

(** What the evaluator answers on ["full.csv"] and ["model.pkl"]. *)
Definition response : ModelEvaluation.EvaluateModelResponse :=
  {| ModelEvaluation.trained_model_f1_score := 0.5%float;
     ModelEvaluation.best_model_f1_score := 0.5%float;
     ModelEvaluation.is_model_accepted := true;
     ModelEvaluation.difference := 0%float |}.

(** What the validator answers on ["short.csv"] and ["full.csv"]. *)
Definition failed_artifact : DataValidationArtifact.t :=
  {| DataValidationArtifact.validation_status := false;
     DataValidationArtifact.message :=
       "Data validation failed due to: Columns are missing in training dataframe. Required numerical/categorical columns are missing in training dataframe. ";
     DataValidationArtifact.drift_report_file_path := "artifact/drift/report.yaml" |}.

End Demo.

(** ** A second small run: the same files without rows

    The frames of [Demo] with their rows removed, read by a world that has
    no model and whose metric always fails. *)

Module DemoEmpty.

Definition full_empty_frame : DataFrame :=
  [("yr_of_estab", []); ("education", []); ("case_status", [])].

Definition short_empty_frame : DataFrame :=
  [("yr_of_estab", []); ("education", [])].

Definition empty_world : World := {|
  USvisaModel := Empty_set;
  ModelEvaluationConfig := unit;
  read_csv := fun path =>
    if bool_decide (path = "full.csv") then Returns full_empty_frame
    else if bool_decide (path = "short.csv") then Returns short_empty_frame
    else Raises (LibraryError "No such file or directory");
  read_yaml_file := fun _ => Raises (LibraryError "No such file or directory");
  load_object := fun _ => Raises (LibraryError "No such file or directory");
  predict := fun model _ => match model with end;
  f1_score := fun _ _ => Raises (LibraryError "Found input variables with inconsistent numbers of samples");
  SCHEMA_FILE_PATH := "";
  TARGET_COLUMN := "";
  CURRENT_YEAR := 0;
  TargetValueMapping_asdict := ∅
|}.

End DemoEmpty.

(** ** A third small run: years at the edge of their dtype

    One file whose year column holds the least [int64], and one whose
    columns are a double column with a missing year, a boolean column and
    labels of which one is no key of the mapping. *)

Module DemoEdge.

Definition ancient_frame : DataFrame :=
  [("yr_of_estab", [VInt (-9223372036854775808)]);
   ("case_status", [VStr "Denied"])].

Definition mixed_frame : DataFrame :=
  [("yr_of_estab", [VFloat 1999.5%float; VFloat nan; VFloat 2024%float]);
   ("has_job_experience", [VBool true; VBool false; VBool true]);
   ("case_status", [VStr "Certified"; VStr "Withdrawn"; VStr "Denied"])].

Definition world : World := {|
  USvisaModel := unit;
  ModelEvaluationConfig := unit;
  read_csv := fun path =>
    if bool_decide (path = "ancient.csv") then Returns ancient_frame
    else if bool_decide (path = "mixed.csv") then Returns mixed_frame
    else Raises (LibraryError "No such file or directory");
  read_yaml_file := fun _ => Returns Demo.schema;
  load_object := fun _ => Returns tt;
  predict := fun _ _ => Returns [VInt 0; VInt 0; VInt 0];
  f1_score := fun _ _ => Returns 0%float;
  SCHEMA_FILE_PATH := "config/schema.yaml";
  TARGET_COLUMN := "case_status";
  CURRENT_YEAR := 2024;
  TargetValueMapping_asdict := list_to_map [("Certified", 1%Z); ("Denied", 0%Z)]
|}.

Definition evaluator (test : string) : ModelEvaluation.t world :=
  {| ModelEvaluation.model_eval_config := tt : ModelEvaluationConfig world;
     ModelEvaluation.data_ingestion_artifact :=
       {| DataIngestionArtifact.trained_file_path := test;
          DataIngestionArtifact.test_file_path := test |};
     ModelEvaluation.model_trainer_artifact :=
       {| ModelTrainerArtifact.trained_model_file_path := "model.pkl" |} |}.

End DemoEdge.

(** ** Shapes of frames and runs *)

Module Shape.

(** Every column of the frame has [n] rows. *)
Definition rectangular (n : nat) (df : DataFrame) : Prop :=
  Forall (fun col => length (snd col) = n) df.

(** The validator that reads as training file what [self] reads as test
    file, and the other way round. *)
Definition swapped (self : DataValidation.t) : DataValidation.t :=
  {| DataValidation.data_ingestion_artifact :=
       {| DataIngestionArtifact.trained_file_path :=
            DataIngestionArtifact.test_file_path
              (DataValidation.data_ingestion_artifact self);
          DataIngestionArtifact.test_file_path :=
            DataIngestionArtifact.trained_file_path
              (DataValidation.data_ingestion_artifact self) |};
     DataValidation.data_validation_config := DataValidation.data_validation_config self;
     DataValidation._schema_config := DataValidation._schema_config self |}.

(** The frame passes both sub-checks against the three schema lists. *)
Definition fits (expected numerical categorical : list string) (df : DataFrame) : Prop :=
  length (columns df) = length expected
  ∧ (∀ name, name ∈ numerical → name ∈ columns df)
  ∧ (∀ name, name ∈ categorical → name ∈ columns df).

(** What [evaluate_model] answers when the metric answers [score]. *)
Definition response_of (score : float) : ModelEvaluation.EvaluateModelResponse :=
  {| ModelEvaluation.trained_model_f1_score := score;
     ModelEvaluation.best_model_f1_score := score;
     ModelEvaluation.is_model_accepted := true;
     ModelEvaluation.difference := 0%float |}.

End Shape.
Import Shape.

(** * Properties of the validator *)

Module ValidatorFacts.
Import DataValidation.

(** The loop keeps what it was given and adds, in schema order, the names
    that are not labels of the frame. *)
Lemma collect_missing_filter (dataframe_columns required missing : list string) :
  collect_missing dataframe_columns required missing
  = missing ++ filter (fun column => column ∉ dataframe_columns) required.
Proof.
  revert missing. induction required as [|column rest IH]; intros missing; simpl.
  - by rewrite filter_nil, app_nil_r.
  - case_bool_decide as Hin.
    + rewrite IH, filter_cons_False; [done | tauto].
    + by rewrite IH, filter_cons_True, <- app_assoc.
Qed.

Lemma validate_number_of_columns_returns (self : t) (D : DataFrame) (expected : list string) :
  _schema_config self !! "columns" = Some expected →
  validate_number_of_columns self D
  = Returns (bool_decide (length (columns D) = length expected)).
Proof. intros Hk. unfold validate_number_of_columns, dict_getitem. by rewrite Hk. Qed.

Lemma validate_number_of_columns_raises (self : t) (D : DataFrame) :
  _schema_config self !! "columns" = None →
  validate_number_of_columns self D = Raises (USvisaException (KeyError "columns")).
Proof. intros Hk. unfold validate_number_of_columns, dict_getitem. by rewrite Hk. Qed.

Lemma is_column_exist_missing_returns (self : t) (D : DataFrame)
    (numerical categorical : list string) :
  _schema_config self !! "numerical_columns" = Some numerical →
  _schema_config self !! "categorical_columns" = Some categorical →
  is_column_exist_missing self D
  = Returns (filter (fun column => column ∉ columns D) numerical,
             filter (fun column => column ∉ columns D) categorical).
Proof.
  intros Hn Hc. unfold is_column_exist_missing, dict_getitem.
  rewrite Hn, Hc. simpl. by rewrite !collect_missing_filter.
Qed.

Lemma filter_missing_nil (present required : list string) :
  filter (fun column => column ∉ present) required = []
  ↔ ∀ column, column ∈ required → column ∈ present.
Proof.
  split.
  - intros Hnil column Hreq.
    destruct (decide (column ∈ present)) as [|Hout]; [done|].
    exfalso. eapply filter_nil_not_elem_of; [exact Hnil | exact Hout | exact Hreq].
  - intros Hall. apply elem_of_nil_inv. intros column [Hout Hreq]%list_elem_of_filter.
    apply Hout, Hall, Hreq.
Qed.

Lemma is_column_exist_returns (self : t) (D : DataFrame)
    (numerical categorical : list string) :
  _schema_config self !! "numerical_columns" = Some numerical →
  _schema_config self !! "categorical_columns" = Some categorical →
  is_column_exist self D
  = Returns (bool_decide (filter (fun column => column ∉ columns D) numerical = []
                          ∧ filter (fun column => column ∉ columns D) categorical = [])).
Proof.
  intros Hn Hc. unfold is_column_exist.
  rewrite (is_column_exist_missing_returns _ _ _ _ Hn Hc). simpl. f_equal.
  by destruct (filter _ numerical) as [|n ns], (filter _ categorical) as [|c cs].
Qed.

End ValidatorFacts.

(** C2.  With the key ["columns"] in the schema, [validate_number_of_columns]
    returns [True] exactly when the frame has as many columns as the schema
    lists, and [False] exactly when it has another number.  Labels are not
    compared: any frame with the same number of columns gets the same
    answer, so a frame with one column missing and another added passes. *)
Theorem validate_number_of_columns_compares_counts
    (self : DataValidation.t) (D : DataFrame) (expected : list string) :
  DataValidation._schema_config self !! "columns" = Some expected →
  (DataValidation.validate_number_of_columns self D = Returns true
   ↔ length (columns D) = length expected)
  ∧ (DataValidation.validate_number_of_columns self D = Returns false
     ↔ length (columns D) ≠ length expected)
  ∧ (∀ D' : DataFrame,
       length (columns D') = length (columns D) →
       DataValidation.validate_number_of_columns self D'
       = DataValidation.validate_number_of_columns self D).
Proof.
  intros Hk. rewrite (ValidatorFacts.validate_number_of_columns_returns _ _ _ Hk).
  split; [split|split; [split|]].
  - intros [= Hb]. by apply bool_decide_eq_true in Hb.
  - intros Hlen. f_equal. by apply bool_decide_eq_true.
  - intros [= Hb]. by apply bool_decide_eq_false in Hb.
  - intros Hlen. f_equal. by apply bool_decide_eq_false.
  - intros D' Hlen.
    rewrite (ValidatorFacts.validate_number_of_columns_returns _ _ _ Hk). by rewrite Hlen.
Qed.

Lemma validate_number_of_columns_compares_counts_witness :
  DataValidation._schema_config (Demo.validator "renamed.csv" "full.csv") !! "columns"
    = Some ["yr_of_estab"; "education"; "case_status"]
  ∧ DataValidation.validate_number_of_columns
      (Demo.validator "renamed.csv" "full.csv") Demo.renamed_frame = Returns true
  ∧ DataValidation.validate_number_of_columns
      (Demo.validator "renamed.csv" "full.csv") Demo.short_frame = Returns false.
Proof.
  split; [reflexivity|]. split.
  - apply (validate_number_of_columns_compares_counts
             (Demo.validator "renamed.csv" "full.csv") Demo.renamed_frame
             ["yr_of_estab"; "education"; "case_status"]); reflexivity.
  - apply (validate_number_of_columns_compares_counts
             (Demo.validator "renamed.csv" "full.csv") Demo.short_frame
             ["yr_of_estab"; "education"; "case_status"]); [reflexivity | simpl; lia].
Defined.

(** C9.  Two frames with the same number of columns get the same answer from
    [validate_number_of_columns] under the same schema, whatever their
    labels, rows and cells; this includes the exception raised when the
    schema has no ["columns"] key. *)
Theorem validate_number_of_columns_depends_on_count_only
    (self : DataValidation.t) (D1 D2 : DataFrame) :
  length (columns D1) = length (columns D2) →
  DataValidation.validate_number_of_columns self D1
  = DataValidation.validate_number_of_columns self D2.
Proof.
  intros Hlen. unfold DataValidation.validate_number_of_columns.
  by rewrite Hlen.
Qed.

Lemma validate_number_of_columns_depends_on_count_only_witness :
  length (columns Demo.full_frame) = length (columns Demo.renamed_frame)
  ∧ DataValidation.validate_number_of_columns
      (Demo.validator "full.csv" "renamed.csv") Demo.full_frame
    = DataValidation.validate_number_of_columns
        (Demo.validator "full.csv" "renamed.csv") Demo.renamed_frame.
Proof.
  split; [reflexivity|].
  apply (validate_number_of_columns_depends_on_count_only
           (Demo.validator "full.csv" "renamed.csv") Demo.full_frame Demo.renamed_frame).
  reflexivity.
Defined.

(** C3.  With both required-column keys in the schema, [is_column_exist]
    returns [True] exactly when every numerical and every categorical name
    is a label of the frame.  At its [return] the list of missing numerical
    names holds the numerical names that are not labels of the frame, in
    schema order, and the list of missing categorical names likewise; so a
    name is in a list exactly when it is required in that category and
    absent.  With both required lists empty the answer is [True]. *)
Theorem is_column_exist_checks_required_names
    (self : DataValidation.t) (D : DataFrame) (numerical categorical : list string) :
  DataValidation._schema_config self !! "numerical_columns" = Some numerical →
  DataValidation._schema_config self !! "categorical_columns" = Some categorical →
  (∃ status, DataValidation.is_column_exist self D = Returns status)
  ∧ (DataValidation.is_column_exist self D = Returns true
     ↔ (∀ name, name ∈ numerical → name ∈ columns D)
       ∧ (∀ name, name ∈ categorical → name ∈ columns D))
  ∧ (∃ missing_numerical missing_categorical,
       DataValidation.is_column_exist_missing self D
         = Returns (missing_numerical, missing_categorical)
       ∧ missing_numerical = filter (fun name => name ∉ columns D) numerical
       ∧ missing_categorical = filter (fun name => name ∉ columns D) categorical
       ∧ (∀ name, name ∈ missing_numerical ↔ name ∈ numerical ∧ name ∉ columns D)
       ∧ (∀ name, name ∈ missing_categorical ↔ name ∈ categorical ∧ name ∉ columns D))
  ∧ (numerical = [] → categorical = [] →
     DataValidation.is_column_exist self D = Returns true).
Proof.
  intros Hn Hc.
  pose proof (ValidatorFacts.is_column_exist_returns _ D _ _ Hn Hc) as Hret.
  assert (Hiff : DataValidation.is_column_exist self D = Returns true
     ↔ (∀ name, name ∈ numerical → name ∈ columns D)
       ∧ (∀ name, name ∈ categorical → name ∈ columns D)).
  { rewrite Hret, <- !ValidatorFacts.filter_missing_nil. split.
    - intros [= Hb]. by apply bool_decide_eq_true in Hb.
    - intros Hb. f_equal. by apply bool_decide_eq_true. }
  split; [eauto|]. split; [exact Hiff|]. split.
  - eexists _, _. split; [by apply ValidatorFacts.is_column_exist_missing_returns|].
    split; [done|]. split; [done|].
    split; intros name; rewrite list_elem_of_filter; tauto.
  - intros -> ->. apply Hiff. split; intros name Hin; by apply elem_of_nil in Hin.
Qed.

Lemma is_column_exist_checks_required_names_witness :
  (∀ name, name ∈ ["yr_of_estab"] → name ∈ columns Demo.full_frame)
  ∧ (∀ name, name ∈ ["education"; "case_status"] → name ∈ columns Demo.full_frame).
Proof.
  apply (proj1 (proj1 (proj2 (is_column_exist_checks_required_names
                                (Demo.validator "full.csv" "short.csv") Demo.full_frame
                                ["yr_of_estab"] ["education"; "case_status"]
                                eq_refl eq_refl)))).
  reflexivity.
Defined.

Module StageFacts.
Import DataValidation.

Lemma read_data_returns (W : World) (path : string) (df : DataFrame) :
  read_csv W path = Returns df → read_data W path = Returns df.
Proof. intros H. unfold read_data. by rewrite H. Qed.

Lemma failure_phrases_nil (s1 s2 s3 s4 : bool) :
  failure_phrases s1 s2 s3 s4 = [] ↔ s1 = true ∧ s2 = true ∧ s3 = true ∧ s4 = true.
Proof. destruct s1, s2, s3, s4; simpl; split; (done || intros (? & ? & ? & ?); done). Qed.

(** The artifact of a run both loads and all four sub-checks of which
    return. *)
Lemma initiate_data_validation_returns (W : World) (self : t)
    (train_df test_df : DataFrame) (s1 s2 s3 s4 : bool) :
  read_csv W (DataIngestionArtifact.trained_file_path (data_ingestion_artifact self))
    = Returns train_df →
  read_csv W (DataIngestionArtifact.test_file_path (data_ingestion_artifact self))
    = Returns test_df →
  sub_checks self train_df test_df s1 s2 s3 s4 →
  initiate_data_validation W self
  = Returns {| DataValidationArtifact.validation_status := s1 && s2 && s3 && s4;
               DataValidationArtifact.message := prefixed_message s1 s2 s3 s4;
               DataValidationArtifact.drift_report_file_path :=
                 DataValidationConfig.drift_report_file_path
                   (data_validation_config self) |}.
Proof.
  intros Htrain Htest (H1 & H2 & H3 & H4). unfold initiate_data_validation.
  rewrite (read_data_returns _ _ _ Htrain), (read_data_returns _ _ _ Htest). simpl.
  rewrite H1. simpl. rewrite H2. simpl. rewrite H3. simpl. rewrite H4.
  by destruct s1, s2, s3, s4.
Qed.

(** Every artifact comes from such a run. *)
Lemma initiate_data_validation_inv (W : World) (self : t) (a : DataValidationArtifact.t) :
  initiate_data_validation W self = Returns a →
  ∃ train_df test_df s1 s2 s3 s4,
    read_csv W (DataIngestionArtifact.trained_file_path (data_ingestion_artifact self))
      = Returns train_df
    ∧ read_csv W (DataIngestionArtifact.test_file_path (data_ingestion_artifact self))
        = Returns test_df
    ∧ sub_checks self train_df test_df s1 s2 s3 s4.
Proof.
  unfold initiate_data_validation, read_data, sub_checks.
  destruct (read_csv W (DataIngestionArtifact.trained_file_path _)) as [train_df|];
    [|discriminate].
  destruct (read_csv W (DataIngestionArtifact.test_file_path _)) as [test_df|];
    [|discriminate].
  simpl.
  destruct (validate_number_of_columns self train_df) as [s1|] eqn:H1; [|discriminate].
  simpl.
  destruct (validate_number_of_columns self test_df) as [s2|] eqn:H2; [|discriminate].
  simpl.
  destruct (is_column_exist self train_df) as [s3|] eqn:H3; [|discriminate]. simpl.
  destruct (is_column_exist self test_df) as [s4|] eqn:H4; [|discriminate].
  intros _. by exists train_df, test_df, s1, s2, s3, s4.
Qed.

Lemma prefixed_message_success (s1 s2 s3 s4 : bool) :
  prefixed_message s1 s2 s3 s4 = success_message
  ↔ s1 = true ∧ s2 = true ∧ s3 = true ∧ s4 = true.
Proof.
  unfold prefixed_message, success_message, failure_prefix.
  destruct s1, s2, s3, s4; simpl; split;
    first [ done | discriminate | intros (? & ? & ? & ?); discriminate ].
Qed.

End StageFacts.

(** C4, as amended.  When both frames load and the four sub-checks return,
    [initiate_data_validation] returns an artifact whose message is the
    success string exactly when all four sub-checks passed; otherwise the
    message is the prefix "Data validation failed due to: " followed by the
    phrases of the failed sub-checks, in the order train-count, test-count,
    train-exist, test-exist, and no other phrase. *)
Theorem initiate_data_validation_message
    (W : World) (self : DataValidation.t) (train_df test_df : DataFrame)
    (train_count test_count train_exist test_exist : bool) :
  read_csv W (DataIngestionArtifact.trained_file_path
                (DataValidation.data_ingestion_artifact self)) = Returns train_df →
  read_csv W (DataIngestionArtifact.test_file_path
                (DataValidation.data_ingestion_artifact self)) = Returns test_df →
  sub_checks self train_df test_df train_count test_count train_exist test_exist →
  ∃ a, DataValidation.initiate_data_validation W self = Returns a
    ∧ (DataValidationArtifact.message a = success_message
       ↔ train_count = true ∧ test_count = true ∧ train_exist = true ∧ test_exist = true)
    ∧ (¬ (train_count = true ∧ test_count = true ∧ train_exist = true ∧ test_exist = true) →
       DataValidationArtifact.message a
       = failure_prefix
         +:+ String.concat ""
               (failure_phrases train_count test_count train_exist test_exist)).
Proof.
  intros Htrain Htest Hchecks. eexists. split.
  - by apply (StageFacts.initiate_data_validation_returns W self train_df test_df).
  - simpl. split; [apply StageFacts.prefixed_message_success|].
    intros Hfail. unfold prefixed_message.
    destruct train_count, test_count, train_exist, test_exist; simpl; try done.
    exfalso. by apply Hfail.
Qed.

Lemma initiate_data_validation_message_witness :
  sub_checks (Demo.validator "short.csv" "full.csv") Demo.short_frame Demo.full_frame
    false true false true
  ∧ ∃ a, DataValidation.initiate_data_validation Demo.world
           (Demo.validator "short.csv" "full.csv") = Returns a
      ∧ (DataValidationArtifact.message a = success_message
         ↔ false = true ∧ true = true ∧ false = true ∧ true = true)
      ∧ (¬ (false = true ∧ true = true ∧ false = true ∧ true = true) →
         DataValidationArtifact.message a
         = failure_prefix +:+ String.concat "" (failure_phrases false true false true)).
Proof.
  assert (sub_checks (Demo.validator "short.csv" "full.csv") Demo.short_frame
            Demo.full_frame false true false true) as Hchecks
    by (repeat split; reflexivity).
  split; [exact Hchecks|].
  apply (initiate_data_validation_message Demo.world
           (Demo.validator "short.csv" "full.csv") Demo.short_frame Demo.full_frame
           false true false true); [reflexivity | reflexivity | exact Hchecks].
Defined.

(** C4 in its original wording does not hold: with a training frame that lacks a
    column, the message is not the bare concatenation of the phrases of the
    failed sub-checks. *)
Lemma message_is_not_bare_concatenation :
  ¬ message_is_bare_concatenation Demo.world (Demo.validator "short.csv" "full.csv").
Proof.
  intros Hbare.
  specialize (Hbare Demo.short_frame Demo.full_frame false true false true
                _ eq_refl eq_refl (conj eq_refl (conj eq_refl (conj eq_refl eq_refl)))
                eq_refl).
  vm_compute in Hbare. discriminate Hbare.
Qed.

(** C5.  When both frames load and the four sub-checks return,
    [initiate_data_validation] returns an artifact whose [validation_status]
    is [True] exactly when no failure phrase was appended, which is exactly
    when all four sub-checks passed. *)
Theorem initiate_data_validation_status
    (W : World) (self : DataValidation.t) (train_df test_df : DataFrame)
    (train_count test_count train_exist test_exist : bool) :
  read_csv W (DataIngestionArtifact.trained_file_path
                (DataValidation.data_ingestion_artifact self)) = Returns train_df →
  read_csv W (DataIngestionArtifact.test_file_path
                (DataValidation.data_ingestion_artifact self)) = Returns test_df →
  sub_checks self train_df test_df train_count test_count train_exist test_exist →
  ∃ a, DataValidation.initiate_data_validation W self = Returns a
    ∧ (DataValidationArtifact.validation_status a = true
       ↔ failure_phrases train_count test_count train_exist test_exist = [])
    ∧ (DataValidationArtifact.validation_status a = true
       ↔ train_count = true ∧ test_count = true ∧ train_exist = true ∧ test_exist = true).
Proof.
  intros Htrain Htest Hchecks. eexists. split.
  - by apply (StageFacts.initiate_data_validation_returns W self train_df test_df).
  - simpl. rewrite StageFacts.failure_phrases_nil.
    assert (train_count && test_count && train_exist && test_exist = true
            ↔ train_count = true ∧ test_count = true ∧ train_exist = true
              ∧ test_exist = true) as Hand.
    { rewrite !andb_true_iff. tauto. }
    by split.
Qed.

Lemma initiate_data_validation_status_witness :
  sub_checks (Demo.validator "full.csv" "full.csv") Demo.full_frame Demo.full_frame
    true true true true
  ∧ ∃ a, DataValidation.initiate_data_validation Demo.world
           (Demo.validator "full.csv" "full.csv") = Returns a
      ∧ (DataValidationArtifact.validation_status a = true
         ↔ failure_phrases true true true true = [])
      ∧ (DataValidationArtifact.validation_status a = true
         ↔ true = true ∧ true = true ∧ true = true ∧ true = true).
Proof.
  assert (sub_checks (Demo.validator "full.csv" "full.csv") Demo.full_frame
            Demo.full_frame true true true true) as Hchecks
    by (repeat split; reflexivity).
  split; [exact Hchecks|].
  apply (initiate_data_validation_status Demo.world
           (Demo.validator "full.csv" "full.csv") Demo.full_frame Demo.full_frame
           true true true true); [reflexivity | reflexivity | exact Hchecks].
Defined.

(** C10.  Every artifact [initiate_data_validation] returns carries the
    [drift_report_file_path] of the validation configuration, whatever its
    [validation_status]. *)
Theorem initiate_data_validation_drift_report_path
    (W : World) (self : DataValidation.t) (a : DataValidationArtifact.t) :
  DataValidation.initiate_data_validation W self = Returns a →
  DataValidationArtifact.drift_report_file_path a
  = DataValidationConfig.drift_report_file_path
      (DataValidation.data_validation_config self).
Proof.
  intros Hret.
  destruct (StageFacts.initiate_data_validation_inv W self a Hret)
    as (train_df & test_df & s1 & s2 & s3 & s4 & Htrain & Htest & Hchecks).
  rewrite (StageFacts.initiate_data_validation_returns W self _ _ _ _ _ _
             Htrain Htest Hchecks) in Hret.
  by injection Hret as <-.
Qed.

Lemma initiate_data_validation_drift_report_path_witness :
  DataValidation.initiate_data_validation Demo.world (Demo.validator "short.csv" "full.csv")
    = Returns Demo.failed_artifact
  ∧ DataValidationArtifact.drift_report_file_path Demo.failed_artifact
    = DataValidationConfig.drift_report_file_path
        (DataValidation.data_validation_config (Demo.validator "short.csv" "full.csv")).
Proof.
  split; [reflexivity|].
  apply (initiate_data_validation_drift_report_path Demo.world
           (Demo.validator "short.csv" "full.csv") Demo.failed_artifact).
  reflexivity.
Defined.

(** * Properties of the evaluator *)

Module FrameFacts.

Lemma getitem_returns_elem (df : DataFrame) (key : string) (values : Series) :
  getitem df key = Returns values → key ∈ columns df.
Proof.
  induction df as [|[label column] rest IH]; simpl; [discriminate|].
  case_bool_decide as Hlabel.
  - intros _. subst. apply list_elem_of_here.
  - intros Hrest. apply list_elem_of_further, IH, Hrest.
Qed.

Lemma getitem_elem_returns (df : DataFrame) (key : string) :
  key ∈ columns df → ∃ values, getitem df key = Returns values.
Proof.
  induction df as [|[label column] rest IH]; simpl.
  - intros Hin. by apply elem_of_nil in Hin.
  - intros Hin. case_bool_decide as Hlabel; [eauto|].
    apply elem_of_cons in Hin as [Heq|Hin]; [congruence|]. by apply IH.
Qed.

Lemma getitem_overwritten (df : DataFrame) (key : string) (values : Series) :
  key ∈ columns df →
  getitem (map (fun col => if bool_decide (fst col = key) then (fst col, values) else col) df)
          key
  = Returns values.
Proof.
  induction df as [|[label column] rest IH]; simpl.
  - intros Hin. by apply elem_of_nil in Hin.
  - intros Hin. case_bool_decide as Hlabel; simpl.
    + by rewrite bool_decide_eq_true_2.
    + rewrite bool_decide_eq_false_2 by done.
      apply elem_of_cons in Hin as [Heq|Hin]; [congruence|]. by apply IH.
Qed.

Lemma getitem_appended (df : DataFrame) (key : string) (values : Series) :
  key ∉ columns df → getitem (df ++ [(key, values)]) key = Returns values.
Proof.
  induction df as [|[label column] rest IH]; simpl.
  - intros _. by rewrite bool_decide_eq_true_2.
  - intros Hout. apply not_elem_of_cons in Hout as [Hne Hout].
    rewrite bool_decide_eq_false_2 by congruence. by apply IH.
Qed.

(** Reading back the column that was just assigned. *)
Lemma getitem_setitem (df : DataFrame) (key : string) (values : Series) :
  getitem (setitem df key values) key = Returns values.
Proof.
  unfold setitem. case_bool_decide as Hin.
  - by apply getitem_overwritten.
  - by apply getitem_appended.
Qed.

Lemma drop_returns (df : DataFrame) (key : string) :
  key ∈ columns df → drop df key = Returns (filter (fun col => fst col ≠ key) df).
Proof. intros Hin. unfold drop. by rewrite bool_decide_eq_true_2. Qed.

Lemma drop_returns_elem (df x : DataFrame) (key : string) :
  drop df key = Returns x → key ∈ columns df.
Proof. unfold drop. case_bool_decide; [done | discriminate]. Qed.

Lemma columns_filter (df : DataFrame) (key : string) :
  columns (filter (fun col => fst col ≠ key) df)
  = filter (fun label => label ≠ key) (columns df).
Proof.
  unfold columns. induction df as [|[label column] rest IH]; [done|].
  rewrite filter_cons. cbn [map fst]. rewrite filter_cons. cbn [fst].
  destruct (decide (label ≠ key)); cbn [map fst]; by rewrite IH.
Qed.

(** A 64-bit integer stays what it is. *)
Lemma int64_in_range (z : Z) : (- 2 ^ 63 ≤ z < 2 ^ 63)%Z → int64 z = z.
Proof.
  intros Hz. unfold int64. rewrite Z.mod_small; lia.
Qed.


(** Subtracting from a column without text never raises and works row by
    row, in the arithmetic of each cell. *)
Lemma series_rsub_no_text (n : Z) (s : Series) :
  no_text s → series_rsub n s = Returns (map (age_cell n) s).
Proof.
  induction s as [|c rest IH]; intros Hs; [done|].
  assert (no_text rest) as Hrest.
  { intros text Hin. apply (Hs text). by apply list_elem_of_further. }
  simpl. destruct c as [z|text|z|f|b]; simpl; try by rewrite (IH Hrest).
  exfalso. apply (Hs text). apply list_elem_of_here.
Qed.

(** Only a column without text can be subtracted from. *)
Lemma series_rsub_returns_inv (n : Z) (s company_age : Series) :
  series_rsub n s = Returns company_age →
  no_text s ∧ company_age = map (age_cell n) s.
Proof.
  revert company_age. induction s as [|c rest IH]; intros company_age; simpl.
  - intros [= <-]. split; [|done]. intros text Hin. by apply elem_of_nil in Hin.
  - destruct (cell_rsub n c) as [c'|] eqn:Hc; simpl; [|discriminate].
    destruct (series_rsub n rest) as [rest'|] eqn:Hrest; simpl; [|discriminate].
    intros [= <-]. destruct (IH rest' eq_refl) as [Hno ->]. split.
    + intros text Hin. apply elem_of_cons in Hin as [<-|Hin]; [discriminate Hc|].
      by apply (Hno text).
    + destruct c; simpl in Hc; try discriminate Hc; by injection Hc as <-.
Qed.

End FrameFacts.

Module EvaluatorFacts.
Import ModelEvaluation.

(** From the prepared features and target on, [evaluate_model] is
    [score_trained_model]. *)
Lemma evaluate_model_prepared (W : World) (self : t W) (x : DataFrame) (y : Series) :
  prepared W self x y →
  evaluate_model W self
  = try_except (score_trained_model W self x (replace (TargetValueMapping_asdict W) y)).
Proof.
  intros (test_df & yr_of_estab & company_age & Hread & Hyr & Hsub & Hdrop & Htarget).
  unfold evaluate_model, score_trained_model.
  rewrite Hread. simpl. rewrite Hyr. simpl. rewrite Hsub. simpl.
  rewrite Hdrop. simpl. rewrite Htarget. simpl.
  destruct (load_object W _) as [model|]; [|done]. simpl.
  destruct (predict W model x) as [predictions|]; [|done]. simpl.
  by destruct (f1_score W _ predictions).
Qed.

Lemma prepared_functional (W : World) (self : t W) (x x' : DataFrame) (y y' : Series) :
  prepared W self x y → prepared W self x' y' → x = x' ∧ y = y'.
Proof.
  intros (df & yr & age & Hread & Hyr & Hsub & Hdrop & Htarget)
         (df' & yr' & age' & Hread' & Hyr' & Hsub' & Hdrop' & Htarget').
  rewrite Hread in Hread'. injection Hread' as <-.
  rewrite Hyr in Hyr'. injection Hyr' as <-.
  rewrite Hsub in Hsub'. injection Hsub' as <-.
  rewrite Hdrop in Hdrop'. rewrite Htarget in Htarget'. split; congruence.
Qed.

(** The evaluation either returns with no failing step, or raises the
    wrapped error of a failing step. *)
Lemma evaluate_model_outcome (W : World) (self : t W) :
  (∃ r, evaluate_model W self = Returns r ∧ ∀ e, ¬ evaluation_step_fails W self e)
  ∨ (∃ e, evaluation_step_fails W self e
          ∧ evaluate_model W self = Raises (USvisaException e)).
Proof.
  destruct (read_csv W (DataIngestionArtifact.test_file_path (data_ingestion_artifact W self)))
    as [test_df|e] eqn:Hread.
  2: { right. exists e. split; [by apply dataset_load_fails|].
       unfold evaluate_model. by rewrite Hread. }
  destruct (getitem test_df "yr_of_estab") as [yr_of_estab|e] eqn:Hyr.
  2: { right. exists e. split; [by eapply year_column_fails|].
       unfold evaluate_model. rewrite Hread. simpl. by rewrite Hyr. }
  destruct (series_rsub (CURRENT_YEAR W) yr_of_estab) as [company_age|e] eqn:Hsub.
  2: { right. exists e. split; [by eapply subtraction_fails|].
       unfold evaluate_model. rewrite Hread. simpl. rewrite Hyr. simpl. by rewrite Hsub. }
  destruct (drop (setitem test_df "company_age" company_age) (TARGET_COLUMN W))
    as [x|e] eqn:Hdrop.
  2: { right. exists e. split; [by eapply target_column_fails|].
       unfold evaluate_model. rewrite Hread. simpl. rewrite Hyr. simpl. rewrite Hsub. simpl.
       by rewrite Hdrop. }
  destruct (FrameFacts.getitem_elem_returns _ _ (FrameFacts.drop_returns_elem _ _ _ Hdrop))
    as [y Htarget].
  assert (Hprep : prepared W self x y) by (by exists test_df, yr_of_estab, company_age).
  rewrite (evaluate_model_prepared W self x y Hprep). unfold score_trained_model.
  destruct (load_object W _) as [model|e] eqn:Hload.
  2: { right. exists e. split; [by apply model_load_fails | done]. }
  simpl. destruct (predict W model x) as [predictions|e] eqn:Hpred.
  2: { right. exists e. split; [by eapply prediction_fails | done]. }
  simpl. destruct (f1_score W _ predictions) as [score|e] eqn:Hscore.
  2: { right. exists e. split; [by eapply metric_fails | done]. }
  left. eexists. split; [done|].
  intros e Hfail.
  destruct Hfail as [e H1 | df' e H1 H2 | df' yr' e H1 H2 H3 | df' yr' age' e H1 H2 H3 H4
                    | e H1 | x' y' model' e Hp H1 H2 | x' y' model' predictions' e Hp H1 H2 H3].
  - congruence.
  - congruence.
  - rewrite Hread in H1. injection H1 as <-. congruence.
  - rewrite Hread in H1. injection H1 as <-. rewrite Hyr in H2. injection H2 as <-.
    congruence.
  - congruence.
  - destruct (prepared_functional _ _ _ _ _ _ Hprep Hp) as [<- <-]. congruence.
  - destruct (prepared_functional _ _ _ _ _ _ Hprep Hp) as [<- <-].
    rewrite Hload in H1. injection H1 as <-. congruence.
Qed.

Lemma initiate_model_evaluation_unfold (W : World) (self : t W) :
  initiate_model_evaluation W self
  = match evaluate_model W self with
    | Returns r =>
        Returns {| ModelEvaluationArtifact.is_model_accepted := is_model_accepted r;
                   ModelEvaluationArtifact.trained_model_path :=
                     ModelTrainerArtifact.trained_model_file_path
                       (model_trainer_artifact W self);
                   ModelEvaluationArtifact.changed_accuracy := difference r |}
    | Raises e => Raises (USvisaException e)
    end.
Proof. unfold initiate_model_evaluation. by destruct (evaluate_model W self). Qed.

(** What a response that [evaluate_model] returns looks like. *)
Lemma evaluate_model_returns_inv (W : World) (self : t W) (r : EvaluateModelResponse) :
  evaluate_model W self = Returns r →
  r = {| trained_model_f1_score := trained_model_f1_score r;
         best_model_f1_score := trained_model_f1_score r;
         is_model_accepted := true;
         difference := 0%float |}.
Proof.
  unfold evaluate_model.
  destruct (read_csv W _) as [test_df|]; [|discriminate]. simpl.
  destruct (getitem test_df "yr_of_estab") as [yr|]; [|discriminate]. simpl.
  destruct (series_rsub _ yr) as [age|]; [|discriminate]. simpl.
  destruct (drop _ _) as [x|]; [|discriminate]. simpl.
  destruct (getitem _ (TARGET_COLUMN W)) as [y|]; [|discriminate]. simpl.
  destruct (load_object W _) as [model|]; [|discriminate]. simpl.
  destruct (predict W model x) as [predictions|]; [|discriminate]. simpl.
  destruct (f1_score W _ predictions) as [score|]; [|discriminate]. simpl.
  by intros [= <-].
Qed.

End EvaluatorFacts.

(** C1.  Every response [evaluate_model] returns has [is_model_accepted]
    [True], [difference] [0.0] and [best_model_f1_score] equal to
    [trained_model_f1_score], and [initiate_model_evaluation] then returns an
    artifact with [is_model_accepted] [True] and [changed_accuracy] [0.0];
    the score itself does not enter. *)
Theorem evaluator_accepts_by_default
    (W : World) (self : ModelEvaluation.t W) (r : ModelEvaluation.EvaluateModelResponse) :
  ModelEvaluation.evaluate_model W self = Returns r →
  ModelEvaluation.is_model_accepted r = true
  ∧ ModelEvaluation.difference r = 0%float
  ∧ ModelEvaluation.best_model_f1_score r = ModelEvaluation.trained_model_f1_score r
  ∧ ∃ a, ModelEvaluation.initiate_model_evaluation W self = Returns a
      ∧ ModelEvaluationArtifact.is_model_accepted a = true
      ∧ ModelEvaluationArtifact.changed_accuracy a = 0%float.
Proof.
  intros Hret. pose proof (EvaluatorFacts.evaluate_model_returns_inv W self r Hret) as Hr.
  rewrite Hr. simpl. repeat split.
  eexists. rewrite EvaluatorFacts.initiate_model_evaluation_unfold, Hret.
  split; [reflexivity|]. rewrite Hr. simpl. by split.
Qed.

Lemma evaluator_accepts_by_default_witness :
  ModelEvaluation.evaluate_model Demo.world (Demo.evaluator "full.csv" "model.pkl")
    = Returns Demo.response
  ∧ ModelEvaluation.is_model_accepted Demo.response = true
  ∧ ModelEvaluation.difference Demo.response = 0%float
  ∧ ModelEvaluation.best_model_f1_score Demo.response
    = ModelEvaluation.trained_model_f1_score Demo.response
  ∧ ∃ a, ModelEvaluation.initiate_model_evaluation Demo.world
           (Demo.evaluator "full.csv" "model.pkl") = Returns a
      ∧ ModelEvaluationArtifact.is_model_accepted a = true
      ∧ ModelEvaluationArtifact.changed_accuracy a = 0%float.
Proof.
  split; [reflexivity|].
  apply (evaluator_accepts_by_default Demo.world (Demo.evaluator "full.csv" "model.pkl")
           Demo.response).
  reflexivity.
Defined.

(** Whatever the metric answers, there is a run that returns that score and
    the model is accepted. *)
Lemma every_score_is_accepted (score : float) :
  ModelEvaluation.evaluate_model (Demo.world_scoring score)
    (Demo.evaluator_scoring score "full.csv" "model.pkl")
  = Returns {| ModelEvaluation.trained_model_f1_score := score;
               ModelEvaluation.best_model_f1_score := score;
               ModelEvaluation.is_model_accepted := true;
               ModelEvaluation.difference := 0%float |}.
Proof. reflexivity. Qed.

(** C6, as amended.  For a current year from [0] up to [2^63-1] and a loaded
    test frame whose [yr_of_estab] column holds no text and which, once
    [company_age] is set, has the target column [target]: the subtraction
    returns, and the frame gets the column [company_age] that holds, in each
    row, [CURRENT_YEAR] minus the year in the arithmetic of the year's dtype
    (an [int64] year lies from [-2^63] up to [2^63-1], a [uint64] year from
    [0] up to [2^64-1]):
    for an [int64] year the difference wrapped to 64 bits, which is the
    difference itself whenever that is an [int64]; for a [uint64] year the
    difference modulo [2^64]; for a double the IEEE difference; for a
    boolean [CURRENT_YEAR] minus [1] or [0].  The features are all columns
    of that frame except those labelled [TARGET_COLUMN]; the target is
    [target] with, row by row, each label that is a key of the mapping
    replaced by its integer and every other cell kept; and [evaluate_model]
    is the loading, prediction and scoring on exactly these features and
    this mapped target. *)
Theorem evaluate_model_builds_features_and_target
    (W : World) (self : ModelEvaluation.t W) (test_df : DataFrame)
    (yr_of_estab target : Series) :
  (0 ≤ CURRENT_YEAR W < 2 ^ 63)%Z →
  read_csv W (DataIngestionArtifact.test_file_path
                (ModelEvaluation.data_ingestion_artifact W self)) = Returns test_df →
  getitem test_df "yr_of_estab" = Returns yr_of_estab →
  no_text yr_of_estab →
  getitem (augmented W test_df yr_of_estab) (TARGET_COLUMN W) = Returns target →
  series_rsub (CURRENT_YEAR W) yr_of_estab = Returns (company_age_column W yr_of_estab)
  ∧ getitem (augmented W test_df yr_of_estab) "company_age"
    = Returns (company_age_column W yr_of_estab)
  ∧ (∀ (row : nat) z,
       yr_of_estab !! row = Some (VInt z) →
       (- 2 ^ 63 ≤ z < 2 ^ 63)%Z →
       company_age_column W yr_of_estab !! row
       = Some (VInt (int64 (CURRENT_YEAR W - z)))
       ∧ ((- 2 ^ 63 ≤ CURRENT_YEAR W - z < 2 ^ 63)%Z →
          company_age_column W yr_of_estab !! row = Some (VInt (CURRENT_YEAR W - z))))
  ∧ (∀ (row : nat) z,
       yr_of_estab !! row = Some (VUInt z) →
       (0 ≤ z < 2 ^ 64)%Z →
       company_age_column W yr_of_estab !! row
       = Some (VUInt (uint64 (CURRENT_YEAR W - z))))
  ∧ (∀ (row : nat) f,
       yr_of_estab !! row = Some (VFloat f) →
       company_age_column W yr_of_estab !! row
       = Some (VFloat (float_of_Z (CURRENT_YEAR W) - f)))
  ∧ (∀ (row : nat) b,
       yr_of_estab !! row = Some (VBool b) →
       company_age_column W yr_of_estab !! row
       = Some (VInt (CURRENT_YEAR W - Z.b2z b)))
  ∧ columns (feature_matrix W test_df yr_of_estab)
    = filter (fun label => label ≠ TARGET_COLUMN W)
        (columns (augmented W test_df yr_of_estab))
  ∧ (∀ label values,
       (label, values) ∈ feature_matrix W test_df yr_of_estab
       ↔ (label, values) ∈ augmented W test_df yr_of_estab ∧ label ≠ TARGET_COLUMN W)
  ∧ (∀ (row : nat) label z,
       target !! row = Some (VStr label) →
       TargetValueMapping_asdict W !! label = Some z →
       mapped_target W target !! row = Some (VInt z))
  ∧ (∀ (row : nat) c,
       target !! row = Some c →
       (∀ label, c = VStr label → TargetValueMapping_asdict W !! label = None) →
       mapped_target W target !! row = Some c)
  ∧ ModelEvaluation.evaluate_model W self
    = try_except (score_trained_model W self (feature_matrix W test_df yr_of_estab)
                    (mapped_target W target)).
Proof.
  intros Hyear Hread Hyr Hno Htarget.
  assert (∀ (row : nat) c, yr_of_estab !! row = Some c →
            company_age_column W yr_of_estab !! row = Some (age_cell (CURRENT_YEAR W) c))
    as Hrow.
  { intros row c Hc. unfold company_age_column. by rewrite list_lookup_fmap, Hc. }
  split; [by apply FrameFacts.series_rsub_no_text|].
  split; [apply FrameFacts.getitem_setitem|].
  split; [|split; [|split; [|split; [|split; [|split; [|split; [|split]]]]]]].
  - intros row z Hz _. split; [exact (Hrow row _ Hz)|].
    intros Hfits. rewrite (Hrow row _ Hz). simpl.
    by rewrite FrameFacts.int64_in_range.
  - intros row z Hz _. exact (Hrow row _ Hz).
  - intros row f Hf. exact (Hrow row _ Hf).
  - intros row b Hb. rewrite (Hrow row _ Hb). simpl.
    rewrite FrameFacts.int64_in_range; [done|]. destruct b; simpl; lia.
  - apply FrameFacts.columns_filter.
  - intros label values. unfold feature_matrix. rewrite list_elem_of_filter. simpl. tauto.
  - intros row label z Hrow' Hlabel. unfold mapped_target.
    rewrite list_lookup_fmap, Hrow'. simpl. by rewrite Hlabel.
  - intros row c Hrow' Hkey. unfold mapped_target.
    rewrite list_lookup_fmap, Hrow'. simpl. destruct c as [z|label|z|f|b]; try done.
    simpl. by rewrite (Hkey label eq_refl).
  - apply EvaluatorFacts.evaluate_model_prepared.
    exists test_df, yr_of_estab, (company_age_column W yr_of_estab).
    split; [done|]. split; [done|]. split; [by apply FrameFacts.series_rsub_no_text|].
    split; [|exact Htarget].
    apply FrameFacts.drop_returns. eapply FrameFacts.getitem_returns_elem, Htarget.
Qed.

Lemma evaluate_model_builds_features_and_target_witness :
  (0 ≤ CURRENT_YEAR DemoEdge.world < 2 ^ 63)%Z
  ∧ no_text [VFloat 1999.5%float; VFloat nan; VFloat 2024%float]
  ∧ getitem (augmented DemoEdge.world DemoEdge.mixed_frame
               [VFloat 1999.5%float; VFloat nan; VFloat 2024%float]) "company_age"
    = Returns [VFloat 24.5%float; VFloat nan; VFloat 0%float]
  ∧ columns (feature_matrix DemoEdge.world DemoEdge.mixed_frame
               [VFloat 1999.5%float; VFloat nan; VFloat 2024%float])
    = ["yr_of_estab"; "has_job_experience"; "company_age"]
  ∧ ModelEvaluation.evaluate_model DemoEdge.world (DemoEdge.evaluator "mixed.csv")
    = try_except
        (score_trained_model DemoEdge.world (DemoEdge.evaluator "mixed.csv")
           (feature_matrix DemoEdge.world DemoEdge.mixed_frame
              [VFloat 1999.5%float; VFloat nan; VFloat 2024%float])
           [VInt 1; VStr "Withdrawn"; VInt 0]).
Proof.
  assert ((0 ≤ CURRENT_YEAR DemoEdge.world < 2 ^ 63)%Z) as Hyear by (simpl; lia).
  assert (no_text [VFloat 1999.5%float; VFloat nan; VFloat 2024%float]) as Hno.
  { intros text Hin.
    apply elem_of_cons in Hin as [Heq|Hin]; [discriminate|].
    apply elem_of_cons in Hin as [Heq|Hin]; [discriminate|].
    apply elem_of_cons in Hin as [Heq|Hin]; [discriminate|].
    by apply elem_of_nil in Hin. }
  split; [exact Hyear|]. split; [exact Hno|].
  destruct (evaluate_model_builds_features_and_target DemoEdge.world
              (DemoEdge.evaluator "mixed.csv") DemoEdge.mixed_frame
              [VFloat 1999.5%float; VFloat nan; VFloat 2024%float]
              [VStr "Certified"; VStr "Withdrawn"; VStr "Denied"]
              Hyear eq_refl eq_refl Hno eq_refl)
    as (_ & Hage & _ & _ & _ & _ & Hcols & _ & _ & _ & Heval).
  split; [exact Hage|]. split; [exact Hcols | exact Heval].
Defined.

(** C6 in its original wording does not hold: for the year [-2^63] and the
    current year [2024] the [company_age] handed to the predictor is
    [-9223372036854773784], the difference wrapped to 64 bits, and not the
    difference [9223372036854777832]. *)
Lemma company_age_is_not_exact_difference :
  ¬ company_age_is_exact_difference DemoEdge.world (DemoEdge.evaluator "ancient.csv").
Proof.
  intros Hexact.
  assert (prepared DemoEdge.world (DemoEdge.evaluator "ancient.csv")
            [("yr_of_estab", [VInt (-9223372036854775808)]);
             ("company_age", [VInt (-9223372036854773784)])]
            [VStr "Denied"]) as Hprepared.
  { exists DemoEdge.ancient_frame, [VInt (-9223372036854775808)],
      [VInt (-9223372036854773784)].
    repeat split; reflexivity. }
  specialize (Hexact DemoEdge.ancient_frame [(-9223372036854775808)%Z] _ _
                eq_refl eq_refl Hprepared).
  vm_compute in Hexact. discriminate Hexact.
Qed.

Module FailureFacts.
Import DataValidation.

(** The validation either returns with no failing step, or raises the
    doubly wrapped error of a failing step. *)
Lemma initiate_data_validation_outcome (W : World) (self : t) :
  (∃ a, initiate_data_validation W self = Returns a
        ∧ ∀ e, ¬ validation_step_fails W self e)
  ∨ (∃ e, validation_step_fails W self e
          ∧ initiate_data_validation W self
            = Raises (USvisaException (USvisaException e))).
Proof.
  destruct (read_csv W (DataIngestionArtifact.trained_file_path
                          (data_ingestion_artifact self))) as [train_df|e] eqn:Htrain.
  2: { right. exists e. split; [by apply train_load_fails|].
       unfold initiate_data_validation, read_data. by rewrite Htrain. }
  destruct (read_csv W (DataIngestionArtifact.test_file_path
                          (data_ingestion_artifact self))) as [test_df|e] eqn:Htest.
  2: { right. exists e. split; [by apply test_load_fails|].
       unfold initiate_data_validation, read_data. rewrite Htrain, Htest. done. }
  destruct (_schema_config self !! "columns") as [expected|] eqn:Hcolumns.
  2: { right. exists (KeyError "columns").
       split; [apply schema_access_fails; [set_solver | done]|].
       unfold initiate_data_validation, read_data. rewrite Htrain, Htest. simpl.
       rewrite (ValidatorFacts.validate_number_of_columns_raises _ train_df Hcolumns).
       reflexivity. }
  destruct (_schema_config self !! "numerical_columns") as [numerical|] eqn:Hnumerical.
  2: { right. exists (KeyError "numerical_columns").
       split; [apply schema_access_fails; [set_solver | done]|].
       unfold initiate_data_validation, read_data. rewrite Htrain, Htest. simpl.
       rewrite !(ValidatorFacts.validate_number_of_columns_returns _ _ _ Hcolumns). simpl.
       unfold is_column_exist, is_column_exist_missing, dict_getitem.
       rewrite Hnumerical. reflexivity. }
  destruct (_schema_config self !! "categorical_columns") as [categorical|] eqn:Hcategorical.
  2: { right. exists (KeyError "categorical_columns").
       split; [apply schema_access_fails; [set_solver | done]|].
       unfold initiate_data_validation, read_data. rewrite Htrain, Htest. simpl.
       rewrite !(ValidatorFacts.validate_number_of_columns_returns _ _ _ Hcolumns). simpl.
       unfold is_column_exist, is_column_exist_missing, dict_getitem.
       rewrite Hnumerical, Hcategorical. reflexivity. }
  left. eexists. split.
  - apply (StageFacts.initiate_data_validation_returns W self train_df test_df);
      [done | done |].
    repeat split;
      first [ by apply ValidatorFacts.validate_number_of_columns_returns
            | by eapply ValidatorFacts.is_column_exist_returns ].
  - intros e Hfail. destruct Hfail as [e H | e H | key Hkey H]; [congruence | congruence |].
    repeat (apply elem_of_cons in Hkey as [->|Hkey]; [congruence|]).
    by apply elem_of_nil in Hkey.
Qed.

Lemma initiate_model_evaluation_outcome (W : World) (self : ModelEvaluation.t W) :
  (∃ a, ModelEvaluation.initiate_model_evaluation W self = Returns a
        ∧ ∀ e, ¬ evaluation_step_fails W self e)
  ∨ (∃ e, evaluation_step_fails W self e
          ∧ ModelEvaluation.initiate_model_evaluation W self
            = Raises (USvisaException (USvisaException e))).
Proof.
  rewrite EvaluatorFacts.initiate_model_evaluation_unfold.
  destruct (EvaluatorFacts.evaluate_model_outcome W self)
    as [(r & -> & Hnone) | (e & Hfail & ->)]; [left | right]; eauto.
Qed.

End FailureFacts.

(** C8.  In either stage, when an internal step fails (a dataset load, a
    schema subscript, a column subscript or the arithmetic on it, the model
    load, the prediction, the metric), the public operation raises
    [USvisaException] built from the [USvisaException] of the inner method,
    which was built from the error of a failing step, and so returns no
    artifact; when it returns an artifact, no step failed; and whatever it
    raises is such a wrapped error of a failing step. *)
Theorem stage_failure_raises_wrapped_error (W : World) :
  (∀ (self : DataValidation.t) e0,
     validation_step_fails W self e0 →
     ∃ e, validation_step_fails W self e
          ∧ DataValidation.initiate_data_validation W self
            = Raises (USvisaException (USvisaException e)))
  ∧ (∀ (self : DataValidation.t) a,
       DataValidation.initiate_data_validation W self = Returns a →
       ∀ e, ¬ validation_step_fails W self e)
  ∧ (∀ (self : DataValidation.t) e',
       DataValidation.initiate_data_validation W self = Raises e' →
       ∃ e, validation_step_fails W self e ∧ e' = USvisaException (USvisaException e))
  ∧ (∀ (self : ModelEvaluation.t W) e0,
       evaluation_step_fails W self e0 →
       ∃ e, evaluation_step_fails W self e
            ∧ ModelEvaluation.initiate_model_evaluation W self
              = Raises (USvisaException (USvisaException e)))
  ∧ (∀ (self : ModelEvaluation.t W) a,
       ModelEvaluation.initiate_model_evaluation W self = Returns a →
       ∀ e, ¬ evaluation_step_fails W self e)
  ∧ (∀ (self : ModelEvaluation.t W) e',
       ModelEvaluation.initiate_model_evaluation W self = Raises e' →
       ∃ e, evaluation_step_fails W self e ∧ e' = USvisaException (USvisaException e)).
Proof.
  repeat split.
  - intros self e0 Hfail.
    destruct (FailureFacts.initiate_data_validation_outcome W self)
      as [(a & _ & Hnone) | Hraise]; [|exact Hraise].
    destruct (Hnone e0 Hfail).
  - intros self a Hret.
    destruct (FailureFacts.initiate_data_validation_outcome W self)
      as [(a' & _ & Hnone) | (e & _ & Hraise)]; [exact Hnone | congruence].
  - intros self e' Hraise.
    destruct (FailureFacts.initiate_data_validation_outcome W self)
      as [(a & Hret & _) | (e & Hfail & Hraise')]; [congruence|].
    exists e. split; [exact Hfail | congruence].
  - intros self e0 Hfail.
    destruct (FailureFacts.initiate_model_evaluation_outcome W self)
      as [(a & _ & Hnone) | Hraise]; [|exact Hraise].
    destruct (Hnone e0 Hfail).
  - intros self a Hret.
    destruct (FailureFacts.initiate_model_evaluation_outcome W self)
      as [(a' & _ & Hnone) | (e & _ & Hraise)]; [exact Hnone | congruence].
  - intros self e' Hraise.
    destruct (FailureFacts.initiate_model_evaluation_outcome W self)
      as [(a & Hret & _) | (e & Hfail & Hraise')]; [congruence|].
    exists e. split; [exact Hfail | congruence].
Qed.

Lemma stage_failure_raises_wrapped_error_witness :
  (∃ e, validation_step_fails Demo.world (Demo.validator "full.csv" "absent.csv") e
        ∧ DataValidation.initiate_data_validation Demo.world
            (Demo.validator "full.csv" "absent.csv")
          = Raises (USvisaException (USvisaException e)))
  ∧ (∃ e, evaluation_step_fails Demo.world (Demo.evaluator "full.csv" "absent.pkl") e
          ∧ ModelEvaluation.initiate_model_evaluation Demo.world
              (Demo.evaluator "full.csv" "absent.pkl")
            = Raises (USvisaException (USvisaException e))).
Proof.
  destruct (stage_failure_raises_wrapped_error Demo.world)
    as (Hvalidation & _ & _ & Hevaluation & _).
  split.
  - apply (Hvalidation (Demo.validator "full.csv" "absent.csv")
             (LibraryError "No such file or directory")).
    apply test_load_fails. reflexivity.
  - apply (Hevaluation (Demo.evaluator "full.csv" "absent.pkl")
             (USvisaException (LibraryError "No such file or directory"))).
    apply model_load_fails. reflexivity.
Defined.

(** * Further properties of the validator *)

Module ValidatorMore.
Import DataValidation.

Lemma is_column_exist_labels (self : t) (D D' : DataFrame) :
  (∀ name, name ∈ columns D ↔ name ∈ columns D') →
  is_column_exist self D = is_column_exist self D'.
Proof.
  intros Hsame. unfold is_column_exist, is_column_exist_missing.
  destruct (dict_getitem (_schema_config self) "numerical_columns") as [numerical|]; [|done].
  simpl.
  destruct (dict_getitem (_schema_config self) "categorical_columns") as [categorical|];
    [|done].
  simpl. rewrite !ValidatorFacts.collect_missing_filter. simpl.
  rewrite (list_filter_iff (fun column => column ∉ columns D)
             (fun column => column ∉ columns D') numerical)
    by (intros name; by rewrite Hsame).
  by rewrite (list_filter_iff (fun column => column ∉ columns D)
                (fun column => column ∉ columns D') categorical)
    by (intros name; by rewrite Hsame).
Qed.

(** A sub-check that returns needs its schema keys. *)
Lemma is_column_exist_returns_keys (self : t) (D : DataFrame) (status : bool) :
  is_column_exist self D = Returns status →
  ∃ numerical categorical,
    _schema_config self !! "numerical_columns" = Some numerical
    ∧ _schema_config self !! "categorical_columns" = Some categorical.
Proof.
  unfold is_column_exist, is_column_exist_missing, dict_getitem.
  destruct (_schema_config self !! "numerical_columns") as [numerical|]; [|discriminate].
  simpl.
  destruct (_schema_config self !! "categorical_columns") as [categorical|];
    [|discriminate].
  intros _. by exists numerical, categorical.
Qed.

Lemma validate_number_of_columns_returns_key (self : t) (D : DataFrame) (status : bool) :
  validate_number_of_columns self D = Returns status →
  ∃ expected, _schema_config self !! "columns" = Some expected.
Proof.
  unfold validate_number_of_columns, dict_getitem.
  destruct (_schema_config self !! "columns") as [expected|]; [|discriminate].
  intros _. by exists expected.
Qed.

Lemma is_column_exist_true (self : t) (D : DataFrame) (numerical categorical : list string) :
  _schema_config self !! "numerical_columns" = Some numerical →
  _schema_config self !! "categorical_columns" = Some categorical →
  is_column_exist self D = Returns true
  ↔ (∀ name, name ∈ numerical → name ∈ columns D)
    ∧ (∀ name, name ∈ categorical → name ∈ columns D).
Proof.
  intros Hn Hc. rewrite (ValidatorFacts.is_column_exist_returns _ D _ _ Hn Hc).
  rewrite <- !ValidatorFacts.filter_missing_nil. split.
  - intros [= Hb]. by apply bool_decide_eq_true in Hb.
  - intros Hb. f_equal. by apply bool_decide_eq_true.
Qed.

Lemma validate_number_of_columns_true (self : t) (D : DataFrame) (expected : list string) :
  _schema_config self !! "columns" = Some expected →
  validate_number_of_columns self D = Returns true
  ↔ length (columns D) = length expected.
Proof.
  intros Hk. rewrite (ValidatorFacts.validate_number_of_columns_returns _ _ _ Hk). split.
  - intros [= Hb]. by apply bool_decide_eq_true in Hb.
  - intros Hlen. f_equal. by apply bool_decide_eq_true.
Qed.

End ValidatorMore.

(** X1.  [is_column_exist] reads a frame only through the set of its labels:
    two frames with the same labels, in whatever order and however often
    repeated, with whatever rows, get the same answer, exception included. *)
Theorem is_column_exist_depends_on_label_set
    (self : DataValidation.t) (D D' : DataFrame) :
  (∀ name, name ∈ columns D ↔ name ∈ columns D') →
  DataValidation.is_column_exist self D = DataValidation.is_column_exist self D'
  ∧ DataValidation.is_column_exist_missing self D
    = DataValidation.is_column_exist_missing self D'.
Proof.
  intros Hsame. split; [by apply ValidatorMore.is_column_exist_labels|].
  unfold DataValidation.is_column_exist_missing.
  destruct (dict_getitem _ "numerical_columns") as [numerical|]; [|done]. simpl.
  destruct (dict_getitem _ "categorical_columns") as [categorical|]; [|done]. simpl.
  rewrite !ValidatorFacts.collect_missing_filter. simpl.
  rewrite (list_filter_iff (fun column => column ∉ columns D)
             (fun column => column ∉ columns D') numerical)
    by (intros name; by rewrite Hsame).
  by rewrite (list_filter_iff (fun column => column ∉ columns D)
                (fun column => column ∉ columns D') categorical)
    by (intros name; by rewrite Hsame).
Qed.

Lemma is_column_exist_depends_on_label_set_witness :
  (∀ name, name ∈ columns Demo.full_frame
           ↔ name ∈ columns (rev Demo.full_frame ++ [("education", [])]))
  ∧ DataValidation.is_column_exist (Demo.validator "full.csv" "full.csv") Demo.full_frame
    = DataValidation.is_column_exist (Demo.validator "full.csv" "full.csv")
        (rev Demo.full_frame ++ [("education", [])]).
Proof.
  assert (∀ name, name ∈ columns Demo.full_frame
                  ↔ name ∈ columns (rev Demo.full_frame ++ [("education", [])])) as Hsame.
  { intros name. simpl. rewrite !elem_of_cons. tauto. }
  split; [exact Hsame|].
  apply (is_column_exist_depends_on_label_set (Demo.validator "full.csv" "full.csv")
           Demo.full_frame (rev Demo.full_frame ++ [("education", [])]) Hsame).
Defined.

(** X2.  Adding columns never breaks the existence check: when
    [is_column_exist] returns [True] for a frame, it returns [True] for
    every frame that has at least the same labels. *)
Theorem is_column_exist_monotone
    (self : DataValidation.t) (D D' : DataFrame) :
  (∀ name, name ∈ columns D → name ∈ columns D') →
  DataValidation.is_column_exist self D = Returns true →
  DataValidation.is_column_exist self D' = Returns true.
Proof.
  intros Hsub Htrue.
  destruct (ValidatorMore.is_column_exist_returns_keys _ _ _ Htrue)
    as (numerical & categorical & Hn & Hc).
  destruct (proj1 (ValidatorMore.is_column_exist_true _ _ _ _ Hn Hc) Htrue) as [Hnum Hcat].
  apply (ValidatorMore.is_column_exist_true _ _ _ _ Hn Hc). split; eauto.
Qed.

Lemma is_column_exist_monotone_witness :
  (∀ name, name ∈ columns Demo.full_frame
           → name ∈ columns (("region", [VStr "West"]) :: Demo.full_frame))
  ∧ DataValidation.is_column_exist (Demo.validator "full.csv" "full.csv")
      (("region", [VStr "West"]) :: Demo.full_frame) = Returns true.
Proof.
  assert (∀ name, name ∈ columns Demo.full_frame
                  → name ∈ columns (("region", [VStr "West"]) :: Demo.full_frame)) as Hsub.
  { intros name Hin. simpl. by apply list_elem_of_further. }
  split; [exact Hsub|].
  apply (is_column_exist_monotone (Demo.validator "full.csv" "full.csv")
           Demo.full_frame (("region", [VStr "West"]) :: Demo.full_frame) Hsub).
  reflexivity.
Defined.

(** X3.  In every artifact [initiate_data_validation] returns, status and
    message agree: the status is [True] exactly when the message is the
    success string, and when the status is [False] the message is the
    failure prefix followed by a non-empty text. *)
Theorem validation_status_and_message_agree
    (W : World) (self : DataValidation.t) (a : DataValidationArtifact.t) :
  DataValidation.initiate_data_validation W self = Returns a →
  (DataValidationArtifact.validation_status a = true
   ↔ DataValidationArtifact.message a = success_message)
  ∧ (DataValidationArtifact.validation_status a = false →
     ∃ phrases, phrases ≠ ""
                ∧ DataValidationArtifact.message a = failure_prefix +:+ phrases).
Proof.
  intros Hret.
  destruct (StageFacts.initiate_data_validation_inv W self a Hret)
    as (train_df & test_df & s1 & s2 & s3 & s4 & Htrain & Htest & Hchecks).
  rewrite (StageFacts.initiate_data_validation_returns W self _ _ _ _ _ _
             Htrain Htest Hchecks) in Hret.
  injection Hret as <-. simpl. split.
  - rewrite StageFacts.prefixed_message_success, !andb_true_iff. tauto.
  - intros Hfalse. exists (String.concat "" (failure_phrases s1 s2 s3 s4)).
    destruct s1, s2, s3, s4; try discriminate Hfalse; split; done.
Qed.

Lemma validation_status_and_message_agree_witness :
  DataValidation.initiate_data_validation Demo.world (Demo.validator "short.csv" "full.csv")
    = Returns Demo.failed_artifact
  ∧ (DataValidationArtifact.validation_status Demo.failed_artifact = true
     ↔ DataValidationArtifact.message Demo.failed_artifact = success_message).
Proof.
  split; [reflexivity|].
  apply (validation_status_and_message_agree Demo.world
           (Demo.validator "short.csv" "full.csv") Demo.failed_artifact).
  reflexivity.
Defined.

(** X4.  The validation stage reads its world only through the labels of
    the two loaded frames: two worlds whose training frames have the same
    labels, and whose test frames have the same labels, give the same
    outcome, whatever the rows, the model, the metric and the constants. *)
Theorem validation_depends_on_labels_only
    (W W' : World) (self : DataValidation.t) (train_df train_df' test_df test_df' : DataFrame) :
  read_csv W (DataIngestionArtifact.trained_file_path
                (DataValidation.data_ingestion_artifact self)) = Returns train_df →
  read_csv W' (DataIngestionArtifact.trained_file_path
                 (DataValidation.data_ingestion_artifact self)) = Returns train_df' →
  read_csv W (DataIngestionArtifact.test_file_path
                (DataValidation.data_ingestion_artifact self)) = Returns test_df →
  read_csv W' (DataIngestionArtifact.test_file_path
                 (DataValidation.data_ingestion_artifact self)) = Returns test_df' →
  columns train_df = columns train_df' →
  columns test_df = columns test_df' →
  DataValidation.initiate_data_validation W self
  = DataValidation.initiate_data_validation W' self.
Proof.
  intros Htrain Htrain' Htest Htest' Hlabels_train Hlabels_test.
  unfold DataValidation.initiate_data_validation, DataValidation.read_data.
  rewrite Htrain, Htrain', Htest, Htest'. simpl.
  rewrite (ValidatorMore.is_column_exist_labels self train_df train_df')
    by (intros name; by rewrite Hlabels_train).
  rewrite (ValidatorMore.is_column_exist_labels self test_df test_df')
    by (intros name; by rewrite Hlabels_test).
  unfold DataValidation.validate_number_of_columns.
  by rewrite Hlabels_train, Hlabels_test.
Qed.

Lemma validation_depends_on_labels_only_witness :
  DataValidation.initiate_data_validation Demo.world (Demo.validator "full.csv" "short.csv")
  = DataValidation.initiate_data_validation DemoEmpty.empty_world
      (Demo.validator "full.csv" "short.csv").
Proof.
  apply (validation_depends_on_labels_only Demo.world DemoEmpty.empty_world
           (Demo.validator "full.csv" "short.csv")
           Demo.full_frame DemoEmpty.full_empty_frame Demo.short_frame DemoEmpty.short_empty_frame);
    reflexivity.
Defined.

(** X5.  Exchanging the training and the test file does not change the
    verdict: the stage returns for the exchanged validator exactly when it
    returns for the original one, with the same [validation_status] and the
    same [drift_report_file_path]. *)
Theorem validation_status_symmetric
    (W : World) (self : DataValidation.t) (a : DataValidationArtifact.t) :
  DataValidation.initiate_data_validation W self = Returns a →
  ∃ a', DataValidation.initiate_data_validation W (swapped self) = Returns a'
    ∧ DataValidationArtifact.validation_status a'
      = DataValidationArtifact.validation_status a
    ∧ DataValidationArtifact.drift_report_file_path a'
      = DataValidationArtifact.drift_report_file_path a.
Proof.
  intros Hret.
  destruct (StageFacts.initiate_data_validation_inv W self a Hret)
    as (train_df & test_df & s1 & s2 & s3 & s4 & Htrain & Htest & H1 & H2 & H3 & H4).
  rewrite (StageFacts.initiate_data_validation_returns W self train_df test_df s1 s2 s3 s4
             Htrain Htest (conj H1 (conj H2 (conj H3 H4)))) in Hret.
  injection Hret as <-. eexists. split.
  - apply (StageFacts.initiate_data_validation_returns W (swapped self)
             test_df train_df s2 s1 s4 s3); [exact Htest | exact Htrain |].
    by repeat split.
  - simpl. split; [|done]. by destruct s1, s2, s3, s4.
Qed.

Lemma validation_status_symmetric_witness :
  ∃ a', DataValidation.initiate_data_validation Demo.world
          (swapped (Demo.validator "short.csv" "full.csv")) = Returns a'
    ∧ DataValidationArtifact.validation_status a'
      = DataValidationArtifact.validation_status Demo.failed_artifact
    ∧ DataValidationArtifact.drift_report_file_path a'
      = DataValidationArtifact.drift_report_file_path Demo.failed_artifact.
Proof.
  apply (validation_status_symmetric Demo.world (Demo.validator "short.csv" "full.csv")
           Demo.failed_artifact).
  reflexivity.
Defined.

(** X6.  The first failing step decides what the validation stage raises:
    a training file that does not load wins over everything else, then the
    test file, then the key ["columns"], then ["numerical_columns"], then
    ["categorical_columns"]; each error arrives wrapped twice. *)
Theorem validation_first_failure_decides (W : World) (self : DataValidation.t) :
  (∀ e,
     read_csv W (DataIngestionArtifact.trained_file_path
                   (DataValidation.data_ingestion_artifact self)) = Raises e →
     DataValidation.initiate_data_validation W self
     = Raises (USvisaException (USvisaException e)))
  ∧ (∀ train_df e,
       read_csv W (DataIngestionArtifact.trained_file_path
                     (DataValidation.data_ingestion_artifact self)) = Returns train_df →
       read_csv W (DataIngestionArtifact.test_file_path
                     (DataValidation.data_ingestion_artifact self)) = Raises e →
       DataValidation.initiate_data_validation W self
       = Raises (USvisaException (USvisaException e)))
  ∧ (∀ train_df test_df,
       read_csv W (DataIngestionArtifact.trained_file_path
                     (DataValidation.data_ingestion_artifact self)) = Returns train_df →
       read_csv W (DataIngestionArtifact.test_file_path
                     (DataValidation.data_ingestion_artifact self)) = Returns test_df →
       (DataValidation._schema_config self !! "columns" = None →
        DataValidation.initiate_data_validation W self
        = Raises (USvisaException (USvisaException (KeyError "columns"))))
       ∧ (is_Some (DataValidation._schema_config self !! "columns") →
          DataValidation._schema_config self !! "numerical_columns" = None →
          DataValidation.initiate_data_validation W self
          = Raises (USvisaException (USvisaException (KeyError "numerical_columns"))))
       ∧ (is_Some (DataValidation._schema_config self !! "columns") →
          is_Some (DataValidation._schema_config self !! "numerical_columns") →
          DataValidation._schema_config self !! "categorical_columns" = None →
          DataValidation.initiate_data_validation W self
          = Raises (USvisaException (USvisaException (KeyError "categorical_columns"))))).
Proof.
  unfold DataValidation.initiate_data_validation, DataValidation.read_data.
  split; [|split].
  - intros e Htrain. by rewrite Htrain.
  - intros train_df e Htrain Htest. by rewrite Htrain, Htest.
  - intros train_df test_df Htrain Htest. rewrite Htrain, Htest. simpl.
    split; [|split].
    + intros Hcolumns.
      rewrite (ValidatorFacts.validate_number_of_columns_raises _ train_df Hcolumns).
      reflexivity.
    + intros [expected Hcolumns] Hnumerical.
      rewrite !(ValidatorFacts.validate_number_of_columns_returns _ _ _ Hcolumns). simpl.
      unfold DataValidation.is_column_exist, DataValidation.is_column_exist_missing,
        dict_getitem.
      rewrite Hnumerical. reflexivity.
    + intros [expected Hcolumns] [numerical Hnumerical] Hcategorical.
      rewrite !(ValidatorFacts.validate_number_of_columns_returns _ _ _ Hcolumns). simpl.
      unfold DataValidation.is_column_exist, DataValidation.is_column_exist_missing,
        dict_getitem.
      rewrite Hnumerical, Hcategorical. reflexivity.
Qed.

Lemma validation_first_failure_decides_witness :
  read_csv Demo.world "absent_train.csv" = Raises (LibraryError "No such file or directory")
  ∧ DataValidation.initiate_data_validation Demo.world
      (Demo.validator "absent_train.csv" "absent_test.csv")
    = Raises (USvisaException (USvisaException (LibraryError "No such file or directory"))).
Proof.
  split; [reflexivity|].
  apply (proj1 (validation_first_failure_decides Demo.world
                  (Demo.validator "absent_train.csv" "absent_test.csv"))).
  reflexivity.
Defined.

(** X7.  Building a validator and running it gives an artifact with status
    [True] exactly when the schema file loads with its three keys, both
    datasets load, and each frame has as many columns as ["columns"] lists
    and every required numerical and categorical name among its labels. *)
Theorem validation_passes_iff
    (W : World) (ingestion : DataIngestionArtifact.t) (config : DataValidationConfig.t) :
  (∃ self a,
     DataValidation.__init__ W ingestion config = Returns self
     ∧ DataValidation.initiate_data_validation W self = Returns a
     ∧ DataValidationArtifact.validation_status a = true)
  ↔ (∃ schema expected numerical categorical train_df test_df,
       read_yaml_file W (SCHEMA_FILE_PATH W) = Returns schema
       ∧ schema !! "columns" = Some expected
       ∧ schema !! "numerical_columns" = Some numerical
       ∧ schema !! "categorical_columns" = Some categorical
       ∧ read_csv W (DataIngestionArtifact.trained_file_path ingestion) = Returns train_df
       ∧ read_csv W (DataIngestionArtifact.test_file_path ingestion) = Returns test_df
       ∧ fits expected numerical categorical train_df
       ∧ fits expected numerical categorical test_df).
Proof.
  unfold DataValidation.__init__. split.
  - intros (self & a & Hinit & Hret & Hstatus).
    destruct (read_yaml_file W (SCHEMA_FILE_PATH W)) as [schema|] eqn:Hyaml;
      [|discriminate]. simpl in Hinit. injection Hinit as <-.
    destruct (StageFacts.initiate_data_validation_inv W _ a Hret)
      as (train_df & test_df & s1 & s2 & s3 & s4 & Htrain & Htest & H1 & H2 & H3 & H4).
    rewrite (StageFacts.initiate_data_validation_returns W _ train_df test_df s1 s2 s3 s4
               Htrain Htest (conj H1 (conj H2 (conj H3 H4)))) in Hret.
    injection Hret as <-. simpl in Hstatus.
    apply andb_true_iff in Hstatus as [Hstatus ->].
    apply andb_true_iff in Hstatus as [Hstatus ->].
    apply andb_true_iff in Hstatus as [-> ->].
    destruct (ValidatorMore.validate_number_of_columns_returns_key _ _ _ H1)
      as [expected Hcolumns].
    destruct (ValidatorMore.is_column_exist_returns_keys _ _ _ H3)
      as (numerical & categorical & Hnumerical & Hcategorical).
    simpl in *.
    exists schema, expected, numerical, categorical, train_df, test_df.
    repeat (split; [done|]).
    pose (self := {| DataValidation.data_ingestion_artifact := ingestion;
                     DataValidation.data_validation_config := config;
                     DataValidation._schema_config := schema |}).
    split; (split;
      [ by apply (proj1 (ValidatorMore.validate_number_of_columns_true
                           self _ expected Hcolumns))
      | by apply (proj1 (ValidatorMore.is_column_exist_true
                           self _ numerical categorical Hnumerical Hcategorical)) ]).
  - intros (schema & expected & numerical & categorical & train_df & test_df
            & Hyaml & Hcolumns & Hnumerical & Hcategorical & Htrain & Htest
            & (Hlen1 & Hreq1) & (Hlen2 & Hreq2)).
    rewrite Hyaml. simpl. eexists _, _. split; [reflexivity|]. split.
    + apply (StageFacts.initiate_data_validation_returns W _ train_df test_df
               true true true true); [exact Htrain | exact Htest |].
      pose (self := {| DataValidation.data_ingestion_artifact := ingestion;
                       DataValidation.data_validation_config := config;
                       DataValidation._schema_config := schema |}).
      repeat split.
      * by apply (proj2 (ValidatorMore.validate_number_of_columns_true
                           self _ expected Hcolumns)).
      * by apply (proj2 (ValidatorMore.validate_number_of_columns_true
                           self _ expected Hcolumns)).
      * by apply (proj2 (ValidatorMore.is_column_exist_true
                           self _ numerical categorical Hnumerical Hcategorical)).
      * by apply (proj2 (ValidatorMore.is_column_exist_true
                           self _ numerical categorical Hnumerical Hcategorical)).
    + reflexivity.
Qed.

Lemma validation_passes_iff_witness :
  ∃ self a,
    DataValidation.__init__ Demo.world
      {| DataIngestionArtifact.trained_file_path := "full.csv";
         DataIngestionArtifact.test_file_path := "full.csv" |}
      {| DataValidationConfig.drift_report_file_path := "artifact/drift/report.yaml" |}
    = Returns self
    ∧ DataValidation.initiate_data_validation Demo.world self = Returns a
    ∧ DataValidationArtifact.validation_status a = true.
Proof.
  apply (proj2 (validation_passes_iff Demo.world
                  {| DataIngestionArtifact.trained_file_path := "full.csv";
                     DataIngestionArtifact.test_file_path := "full.csv" |}
                  {| DataValidationConfig.drift_report_file_path :=
                       "artifact/drift/report.yaml" |})).
  exists Demo.schema, ["yr_of_estab"; "education"; "case_status"], ["yr_of_estab"],
    ["education"; "case_status"], Demo.full_frame, Demo.full_frame.
  assert (fits ["yr_of_estab"; "education"; "case_status"] ["yr_of_estab"]
            ["education"; "case_status"] Demo.full_frame) as Hfits.
  { split; [reflexivity|].
    apply (proj1 (ValidatorMore.is_column_exist_true
                    (Demo.validator "full.csv" "full.csv") Demo.full_frame
                    ["yr_of_estab"] ["education"; "case_status"] eq_refl eq_refl)).
    reflexivity. }
  repeat (split; [reflexivity|]). split; exact Hfits.
Defined.

(** * Further properties of the evaluator *)

Module FrameMore.


Lemma columns_overwritten (df : DataFrame) (key : string) (values : Series) :
  columns (map (fun col => if bool_decide (fst col = key) then (fst col, values) else col) df)
  = columns df.
Proof.
  unfold columns. induction df as [|[label column] rest IH]; [done|].
  cbn [map fst]. rewrite IH. by case_bool_decide.
Qed.

Lemma columns_setitem (df : DataFrame) (key : string) (values : Series) :
  columns (setitem df key values)
  = if bool_decide (key ∈ columns df) then columns df else columns df ++ [key].
Proof.
  unfold setitem. case_bool_decide.
  - apply columns_overwritten.
  - unfold columns. by rewrite map_app.
Qed.

Lemma getitem_app_ne (df : DataFrame) (key label : string) (values : Series) :
  label ≠ key → getitem (df ++ [(key, values)]) label = getitem df label.
Proof.
  intros Hne. induction df as [|[label' column] rest IH]; simpl.
  - by rewrite bool_decide_eq_false_2 by congruence.
  - case_bool_decide; [done | exact IH].
Qed.

Lemma getitem_overwritten_ne (df : DataFrame) (key label : string) (values : Series) :
  label ≠ key →
  getitem (map (fun col => if bool_decide (fst col = key) then (fst col, values) else col) df)
          label
  = getitem df label.
Proof.
  intros Hne. induction df as [|[label' column] rest IH]; [done|].
  cbn [map fst getitem]. destruct (decide (label' = key)) as [->|Hother].
  - rewrite (bool_decide_eq_true_2 (key = key)) by done. cbn [getitem fst].
    rewrite !(bool_decide_eq_false_2 (key = label)) by congruence. exact IH.
  - rewrite (bool_decide_eq_false_2 (label' = key)) by done. cbn [getitem].
    case_bool_decide; [done | exact IH].
Qed.

(** Assigning one column leaves the others as they were. *)
Lemma getitem_setitem_ne (df : DataFrame) (key label : string) (values : Series) :
  label ≠ key → getitem (setitem df key values) label = getitem df label.
Proof.
  intros Hne. unfold setitem. case_bool_decide.
  - by apply getitem_overwritten_ne.
  - by apply getitem_app_ne.
Qed.

(** Dropping one label leaves the other columns as they were. *)
Lemma getitem_filter_ne (df : DataFrame) (key label : string) :
  label ≠ key →
  getitem (filter (fun col => fst col ≠ key) df) label = getitem df label.
Proof.
  intros Hne. induction df as [|[label' column] rest IH]; [done|].
  rewrite filter_cons. cbn [fst]. destruct (decide (label' ≠ key)) as [Hkeep|Hdrop].
  - cbn [getitem]. case_bool_decide; [done | exact IH].
  - cbn [getitem]. rewrite bool_decide_eq_false_2; [exact IH|].
    intros ->. apply Hdrop. exact Hne.
Qed.

Lemma series_rsub_length (n : Z) (s s' : Series) :
  series_rsub n s = Returns s' → length s' = length s.
Proof.
  intros Hret. destruct (FrameFacts.series_rsub_returns_inv n s s' Hret)
    as [_ ->]. by rewrite length_map.
Qed.


Lemma rectangular_setitem (n : nat) (df : DataFrame) (key : string) (values : Series) :
  rectangular n df → length values = n → rectangular n (setitem df key values).
Proof.
  unfold rectangular, setitem. intros Hdf Hvalues. case_bool_decide.
  - apply Forall_map. eapply Forall_impl; [exact Hdf|].
    intros col Hcol. simpl. by case_bool_decide.
  - apply Forall_app. split; [exact Hdf|]. by apply Forall_singleton.
Qed.

Lemma rectangular_getitem (n : nat) (df : DataFrame) (key : string) (values : Series) :
  rectangular n df → getitem df key = Returns values → length values = n.
Proof.
  unfold rectangular. induction df as [|[label column] rest IH]; simpl; [discriminate|].
  intros Hdf. apply Forall_cons in Hdf as [Hcol Hrest]. case_bool_decide.
  - by intros [= <-].
  - by apply IH.
Qed.


End FrameMore.



Module EvaluatorMore.
Import ModelEvaluation.

(** The frame left by the drop is the one [evaluate_model] predicts on. *)
Lemma evaluate_model_scores_on (W : World) (self : t W) (test_df x : DataFrame)
    (yr_of_estab company_age : Series) :
  read_csv W (DataIngestionArtifact.test_file_path (data_ingestion_artifact W self))
    = Returns test_df →
  getitem test_df "yr_of_estab" = Returns yr_of_estab →
  series_rsub (CURRENT_YEAR W) yr_of_estab = Returns company_age →
  drop (setitem test_df "company_age" company_age) (TARGET_COLUMN W) = Returns x →
  ∃ y, getitem (setitem test_df "company_age" company_age) (TARGET_COLUMN W) = Returns y
       ∧ evaluate_model W self
         = try_except (score_trained_model W self x
                         (replace (TargetValueMapping_asdict W) y)).
Proof.
  intros Hread Hyr Hsub Hdrop.
  destruct (FrameFacts.getitem_elem_returns _ _ (FrameFacts.drop_returns_elem _ _ _ Hdrop))
    as [y Htarget].
  exists y. split; [exact Htarget|].
  apply EvaluatorFacts.evaluate_model_prepared.
  by exists test_df, yr_of_estab, company_age.
Qed.

End EvaluatorMore.

(** X9.  The features never hold the target: in the frame that
    [evaluate_model] builds by setting [company_age] and dropping the target
    column, no column is labelled [TARGET_COLUMN]; every column with another
    label than [company_age] and the target is the column of the loaded
    frame; and [company_age], unless it is the target, is the new column.
    When the frame is the loaded test frame of an evaluator and
    [company_age] its subtracted year column, [evaluate_model] predicts and
    scores on exactly these features. *)
Theorem features_exclude_target_and_keep_the_rest
    (W : World) (test_df x : DataFrame) (company_age : Series) :
  drop (setitem test_df "company_age" company_age) (TARGET_COLUMN W) = Returns x →
  (TARGET_COLUMN W ∉ columns x)
  ∧ (∀ label, label ≠ TARGET_COLUMN W → label ≠ "company_age" →
       getitem x label = getitem test_df label)
  ∧ ("company_age" ≠ TARGET_COLUMN W → getitem x "company_age" = Returns company_age)
  ∧ (∀ (self : ModelEvaluation.t W) yr_of_estab,
       read_csv W (DataIngestionArtifact.test_file_path
                     (ModelEvaluation.data_ingestion_artifact W self)) = Returns test_df →
       getitem test_df "yr_of_estab" = Returns yr_of_estab →
       series_rsub (CURRENT_YEAR W) yr_of_estab = Returns company_age →
       ∃ y, ModelEvaluation.evaluate_model W self
            = try_except (score_trained_model W self x
                            (replace (TargetValueMapping_asdict W) y))).
Proof.
  intros Hdrop.
  assert (∀ (self : ModelEvaluation.t W) yr_of_estab,
       read_csv W (DataIngestionArtifact.test_file_path
                     (ModelEvaluation.data_ingestion_artifact W self)) = Returns test_df →
       getitem test_df "yr_of_estab" = Returns yr_of_estab →
       series_rsub (CURRENT_YEAR W) yr_of_estab = Returns company_age →
       ∃ y, ModelEvaluation.evaluate_model W self
            = try_except (score_trained_model W self x
                            (replace (TargetValueMapping_asdict W) y))) as Hlink.
  { intros self yr_of_estab Hread Hyr Hsub.
    destruct (EvaluatorMore.evaluate_model_scores_on W self test_df x yr_of_estab
                company_age Hread Hyr Hsub Hdrop) as (y & _ & Heval).
    by exists y. }
  rewrite (FrameFacts.drop_returns _ _ (FrameFacts.drop_returns_elem _ _ _ Hdrop)) in Hdrop.
  injection Hdrop as <-. split; [|split; [|split; [|exact Hlink]]].
  - rewrite FrameFacts.columns_filter. intros Hin.
    by apply list_elem_of_filter in Hin as [Hne _].
  - intros label Htarget Hage.
    by rewrite FrameMore.getitem_filter_ne, FrameMore.getitem_setitem_ne.
  - intros Hne. rewrite FrameMore.getitem_filter_ne by done.
    apply FrameFacts.getitem_setitem.
Qed.

Lemma features_exclude_target_and_keep_the_rest_witness :
  "case_status" ∉ columns
     (filter (fun col => fst col ≠ "case_status")
        (setitem Demo.full_frame "company_age" [VInt 24; VInt 34; VInt 14; VInt 4])).
Proof.
  apply (features_exclude_target_and_keep_the_rest Demo.world Demo.full_frame
           (filter (fun col => fst col ≠ "case_status")
              (setitem Demo.full_frame "company_age" [VInt 24; VInt 34; VInt 14; VInt 4]))
           [VInt 24; VInt 34; VInt 14; VInt 4]).
  reflexivity.
Defined.

(** X10.  The labels of the features, in order: the labels of the loaded
    frame without the target, with [company_age] staying where it was when
    the frame already had it, and coming last when it is new.  When the
    frame is the loaded test frame of an evaluator and [company_age] its
    subtracted year column, [evaluate_model] predicts and scores on the
    frame with exactly these labels. *)
Theorem feature_labels_in_order
    (W : World) (test_df x : DataFrame) (company_age : Series) :
  drop (setitem test_df "company_age" company_age) (TARGET_COLUMN W) = Returns x →
  columns x
  = filter (fun label => label ≠ TARGET_COLUMN W)
      (if bool_decide ("company_age" ∈ columns test_df)
       then columns test_df
       else columns test_df ++ ["company_age"])
  ∧ (∀ (self : ModelEvaluation.t W) yr_of_estab,
       read_csv W (DataIngestionArtifact.test_file_path
                     (ModelEvaluation.data_ingestion_artifact W self)) = Returns test_df →
       getitem test_df "yr_of_estab" = Returns yr_of_estab →
       series_rsub (CURRENT_YEAR W) yr_of_estab = Returns company_age →
       ∃ y, ModelEvaluation.evaluate_model W self
            = try_except (score_trained_model W self x
                            (replace (TargetValueMapping_asdict W) y))).
Proof.
  intros Hdrop. split.
  - rewrite (FrameFacts.drop_returns _ _ (FrameFacts.drop_returns_elem _ _ _ Hdrop))
      in Hdrop.
    injection Hdrop as <-.
    by rewrite FrameFacts.columns_filter, FrameMore.columns_setitem.
  - intros self yr_of_estab Hread Hyr Hsub.
    destruct (EvaluatorMore.evaluate_model_scores_on W self test_df x yr_of_estab
                company_age Hread Hyr Hsub Hdrop) as (y & _ & Heval).
    by exists y.
Qed.

Lemma feature_labels_in_order_witness :
  columns (filter (fun col => fst col ≠ "case_status")
             (setitem Demo.full_frame "company_age" [VInt 24; VInt 34; VInt 14; VInt 4]))
  = filter (fun label => label ≠ "case_status")
      (if bool_decide ("company_age" ∈ columns Demo.full_frame)
       then columns Demo.full_frame
       else columns Demo.full_frame ++ ["company_age"]).
Proof.
  apply (feature_labels_in_order Demo.world Demo.full_frame
           (filter (fun col => fst col ≠ "case_status")
              (setitem Demo.full_frame "company_age" [VInt 24; VInt 34; VInt 14; VInt 4]))
           [VInt 24; VInt 34; VInt 14; VInt 4]).
  reflexivity.
Defined.

(** X11.  Rows are kept: when every column of the loaded frame has [n]
    rows, so has [company_age], so has every column of the features, and so
    has the mapped target; the predictor and the metric get [n] rows each:
    when the frame is the loaded test frame of an evaluator,
    [evaluate_model] predicts on these features and scores on this mapped
    target. *)
Theorem evaluation_keeps_row_count
    (W : World) (n : nat) (test_df x : DataFrame) (yr_of_estab company_age y : Series) :
  rectangular n test_df →
  getitem test_df "yr_of_estab" = Returns yr_of_estab →
  series_rsub (CURRENT_YEAR W) yr_of_estab = Returns company_age →
  drop (setitem test_df "company_age" company_age) (TARGET_COLUMN W) = Returns x →
  getitem (setitem test_df "company_age" company_age) (TARGET_COLUMN W) = Returns y →
  length company_age = n
  ∧ rectangular n x
  ∧ length (replace (TargetValueMapping_asdict W) y) = n
  ∧ (∀ self : ModelEvaluation.t W,
       read_csv W (DataIngestionArtifact.test_file_path
                     (ModelEvaluation.data_ingestion_artifact W self)) = Returns test_df →
       ModelEvaluation.evaluate_model W self
       = try_except (score_trained_model W self x
                       (replace (TargetValueMapping_asdict W) y))).
Proof.
  intros Hrect Hyr Hsub Hdrop Htarget.
  assert (∀ self : ModelEvaluation.t W,
       read_csv W (DataIngestionArtifact.test_file_path
                     (ModelEvaluation.data_ingestion_artifact W self)) = Returns test_df →
       ModelEvaluation.evaluate_model W self
       = try_except (score_trained_model W self x
                       (replace (TargetValueMapping_asdict W) y))) as Hlink.
  { intros self Hread. apply EvaluatorFacts.evaluate_model_prepared.
    by exists test_df, yr_of_estab, company_age. }
  assert (length company_age = n) as Hage.
  { rewrite (FrameMore.series_rsub_length _ _ _ Hsub).
    by apply (FrameMore.rectangular_getitem n test_df "yr_of_estab"). }
  pose proof (FrameMore.rectangular_setitem n test_df "company_age" company_age Hrect Hage)
    as Haug.
  split; [exact Hage|]. split; [|split; [|exact Hlink]].
  - rewrite (FrameFacts.drop_returns _ _ (FrameFacts.drop_returns_elem _ _ _ Hdrop))
      in Hdrop.
    injection Hdrop as <-. unfold rectangular in *. apply Forall_forall.
    intros col [_ Hin]%list_elem_of_filter.
    by apply (proj1 (Forall_forall _ _) Haug).
  - unfold replace. rewrite length_map.
    by apply (FrameMore.rectangular_getitem n _ _ _ Haug Htarget).
Qed.

Lemma evaluation_keeps_row_count_witness :
  rectangular 4 Demo.full_frame
  ∧ rectangular 4
      (filter (fun col => fst col ≠ "case_status")
         (setitem Demo.full_frame "company_age" [VInt 24; VInt 34; VInt 14; VInt 4])).
Proof.
  assert (rectangular 4 Demo.full_frame) as Hrect by (repeat constructor).
  split; [exact Hrect|].
  apply (evaluation_keeps_row_count Demo.world 4 Demo.full_frame
           (filter (fun col => fst col ≠ "case_status")
              (setitem Demo.full_frame "company_age" [VInt 24; VInt 34; VInt 14; VInt 4]))
           [VInt 2000; VInt 1990; VInt 2010; VInt 2020]
           [VInt 24; VInt 34; VInt 14; VInt 4]
           [VStr "Certified"; VStr "Denied"; VStr "Certified"; VStr "Certified"]
           Hrect eq_refl eq_refl eq_refl eq_refl).
Defined.

(** X12.  The label mapping inside [evaluate_model]: the metric is called
    on the target column after the mapping; mapping twice is mapping once;
    the mapped target holds no text exactly when every text label of the
    target is a key of the mapping; a label that is no key reaches the
    metric as it was; and every cell that is not text (a number, a boolean,
    a missing value) is kept. *)
Theorem target_mapping_maps_known_labels
    (W : World) (self : ModelEvaluation.t W) (x : DataFrame) (y : Series) :
  prepared W self x y →
  ModelEvaluation.evaluate_model W self
  = try_except (score_trained_model W self x (replace (TargetValueMapping_asdict W) y))
  ∧ replace (TargetValueMapping_asdict W) (replace (TargetValueMapping_asdict W) y)
    = replace (TargetValueMapping_asdict W) y
  ∧ (no_text (replace (TargetValueMapping_asdict W) y)
     ↔ (∀ label, VStr label ∈ y → is_Some (TargetValueMapping_asdict W !! label)))
  ∧ (∀ label, VStr label ∈ y → TargetValueMapping_asdict W !! label = None →
       VStr label ∈ replace (TargetValueMapping_asdict W) y)
  ∧ (∀ (row : nat) c, y !! row = Some c → (∀ label, c ≠ VStr label) →
       replace (TargetValueMapping_asdict W) y !! row = Some c).
Proof.
  intros Hprepared. set (mapping := TargetValueMapping_asdict W).
  assert (∀ c, replace_cell mapping (replace_cell mapping c) = replace_cell mapping c)
    as Hidem.
  { intros [z|label|z|f|b]; simpl; try done.
    destruct (mapping !! label) eqn:Hkey; simpl; [done|]. by rewrite Hkey. }
  split; [by apply EvaluatorFacts.evaluate_model_prepared|].
  split; [|split; [|split]].
  - unfold replace. rewrite <- list_fmap_compose. apply list_fmap_ext.
    intros i c _. apply Hidem.
  - unfold replace, no_text. split.
    + intros Hno label Hin. destruct (mapping !! label) eqn:Hkey; [by eexists|].
      exfalso. apply (Hno label).
      replace (VStr label) with (replace_cell mapping (VStr label))
        by (simpl; by rewrite Hkey).
      by apply list_elem_of_fmap_2.
    + intros Hkeys text Hin. apply list_elem_of_fmap in Hin as (c0 & Heq & Hin0).
      destruct c0 as [z|label|z|f|b]; simpl in Heq; try discriminate Heq.
      destruct (Hkeys label Hin0) as [z Hz]. rewrite Hz in Heq. discriminate Heq.
  - intros label Hin Hkey. unfold replace.
    replace (VStr label) with (replace_cell mapping (VStr label))
      by (simpl; by rewrite Hkey).
    by apply list_elem_of_fmap_2.
  - intros row c Hrow Hnot. unfold replace. rewrite list_lookup_fmap, Hrow. simpl.
    destruct c as [z|label|z|f|b]; try done. by destruct (Hnot label).
Qed.

Lemma target_mapping_maps_known_labels_witness :
  prepared DemoEdge.world (DemoEdge.evaluator "mixed.csv")
    [("yr_of_estab", [VFloat 1999.5%float; VFloat nan; VFloat 2024%float]);
     ("has_job_experience", [VBool true; VBool false; VBool true]);
     ("company_age", [VFloat 24.5%float; VFloat nan; VFloat 0%float])]
    [VStr "Certified"; VStr "Withdrawn"; VStr "Denied"]
  ∧ VStr "Withdrawn"
    ∈ replace (TargetValueMapping_asdict DemoEdge.world)
        [VStr "Certified"; VStr "Withdrawn"; VStr "Denied"].
Proof.
  assert (prepared DemoEdge.world (DemoEdge.evaluator "mixed.csv")
            [("yr_of_estab", [VFloat 1999.5%float; VFloat nan; VFloat 2024%float]);
             ("has_job_experience", [VBool true; VBool false; VBool true]);
             ("company_age", [VFloat 24.5%float; VFloat nan; VFloat 0%float])]
            [VStr "Certified"; VStr "Withdrawn"; VStr "Denied"]) as Hprepared.
  { exists DemoEdge.mixed_frame, [VFloat 1999.5%float; VFloat nan; VFloat 2024%float],
      [VFloat 24.5%float; VFloat nan; VFloat 0%float].
    repeat split; reflexivity. }
  split; [exact Hprepared|].
  apply (proj1 (proj2 (proj2 (proj2 (target_mapping_maps_known_labels DemoEdge.world
                                       (DemoEdge.evaluator "mixed.csv") _ _ Hprepared))))
           "Withdrawn").
  - apply list_elem_of_further, list_elem_of_here.
  - reflexivity.
Defined.

(** X13.  [evaluate_model] and [initiate_model_evaluation] read the
    evaluator only through the test file path and the model file path: two
    evaluators that agree on both give the same outcome, whatever their
    training file path and evaluation configuration. *)
Theorem evaluation_ignores_training_path_and_config
    (W : World) (self self' : ModelEvaluation.t W) :
  DataIngestionArtifact.test_file_path (ModelEvaluation.data_ingestion_artifact W self)
  = DataIngestionArtifact.test_file_path (ModelEvaluation.data_ingestion_artifact W self') →
  ModelTrainerArtifact.trained_model_file_path (ModelEvaluation.model_trainer_artifact W self)
  = ModelTrainerArtifact.trained_model_file_path
      (ModelEvaluation.model_trainer_artifact W self') →
  ModelEvaluation.evaluate_model W self = ModelEvaluation.evaluate_model W self'
  ∧ ModelEvaluation.initiate_model_evaluation W self
    = ModelEvaluation.initiate_model_evaluation W self'.
Proof.
  intros Htest Hmodel.
  assert (ModelEvaluation.evaluate_model W self = ModelEvaluation.evaluate_model W self')
    as Heval.
  { unfold ModelEvaluation.evaluate_model. by rewrite Htest, Hmodel. }
  split; [exact Heval|].
  rewrite !EvaluatorFacts.initiate_model_evaluation_unfold. by rewrite Heval, Hmodel.
Qed.

Lemma evaluation_ignores_training_path_and_config_witness :
  ModelEvaluation.evaluate_model Demo.world (Demo.evaluator "full.csv" "model.pkl")
  = ModelEvaluation.evaluate_model Demo.world
      {| ModelEvaluation.model_eval_config := tt : ModelEvaluationConfig Demo.world;
         ModelEvaluation.data_ingestion_artifact :=
           {| DataIngestionArtifact.trained_file_path := "absent.csv";
              DataIngestionArtifact.test_file_path := "full.csv" |};
         ModelEvaluation.model_trainer_artifact :=
           {| ModelTrainerArtifact.trained_model_file_path := "model.pkl" |} |}.
Proof.
  apply (evaluation_ignores_training_path_and_config Demo.world
           (Demo.evaluator "full.csv" "model.pkl")
           {| ModelEvaluation.model_eval_config := tt : ModelEvaluationConfig Demo.world;
              ModelEvaluation.data_ingestion_artifact :=
                {| DataIngestionArtifact.trained_file_path := "absent.csv";
                   DataIngestionArtifact.test_file_path := "full.csv" |};
              ModelEvaluation.model_trainer_artifact :=
                {| ModelTrainerArtifact.trained_model_file_path := "model.pkl" |} |});
    reflexivity.
Defined.

(** X14.  Building an evaluator never raises, and every artifact the built
    evaluator returns names, as [trained_model_path], the model file path of
    the trainer artifact it was built from. *)
Theorem evaluation_artifact_names_trained_model
    (W : World) (config : ModelEvaluationConfig W) (ingestion : DataIngestionArtifact.t)
    (trainer : ModelTrainerArtifact.t) :
  ∃ self,
    ModelEvaluation.__init__ W config ingestion trainer = Returns self
    ∧ ∀ a, ModelEvaluation.initiate_model_evaluation W self = Returns a →
           ModelEvaluationArtifact.trained_model_path a
           = ModelTrainerArtifact.trained_model_file_path trainer.
Proof.
  eexists. split; [reflexivity|]. intros a.
  rewrite EvaluatorFacts.initiate_model_evaluation_unfold.
  destruct (ModelEvaluation.evaluate_model W _) as [r|]; [|discriminate].
  by intros [= <-].
Qed.

Lemma evaluation_artifact_names_trained_model_witness :
  ∃ self,
    ModelEvaluation.__init__ Demo.world (tt : ModelEvaluationConfig Demo.world)
      {| DataIngestionArtifact.trained_file_path := "full.csv";
         DataIngestionArtifact.test_file_path := "full.csv" |}
      {| ModelTrainerArtifact.trained_model_file_path := "model.pkl" |} = Returns self
    ∧ ∀ a, ModelEvaluation.initiate_model_evaluation Demo.world self = Returns a →
           ModelEvaluationArtifact.trained_model_path a = "model.pkl".
Proof.
  exact (evaluation_artifact_names_trained_model Demo.world
           (tt : ModelEvaluationConfig Demo.world)
           {| DataIngestionArtifact.trained_file_path := "full.csv";
              DataIngestionArtifact.test_file_path := "full.csv" |}
           {| ModelTrainerArtifact.trained_model_file_path := "model.pkl" |}).
Defined.

(** X15.  For a current year from [0] up to [2^63-1], [evaluate_model]
    returns exactly when the test file loads, it has a [yr_of_estab] column
    without text, the target column is there once [company_age] is set, the
    model loads, the predictor answers on the features and the metric
    answers on the mapped target; the response then carries the metric's
    answer as trained and as best score. *)
Theorem evaluate_model_returns_iff
    (W : World) (self : ModelEvaluation.t W) (r : ModelEvaluation.EvaluateModelResponse) :
  (0 ≤ CURRENT_YEAR W < 2 ^ 63)%Z →
  ModelEvaluation.evaluate_model W self = Returns r
  ↔ ∃ test_df yr_of_estab target model predictions score,
      read_csv W (DataIngestionArtifact.test_file_path
                    (ModelEvaluation.data_ingestion_artifact W self)) = Returns test_df
      ∧ getitem test_df "yr_of_estab" = Returns yr_of_estab
      ∧ no_text yr_of_estab
      ∧ getitem (augmented W test_df yr_of_estab) (TARGET_COLUMN W) = Returns target
      ∧ load_object W (ModelTrainerArtifact.trained_model_file_path
                         (ModelEvaluation.model_trainer_artifact W self)) = Returns model
      ∧ predict W model (feature_matrix W test_df yr_of_estab) = Returns predictions
      ∧ f1_score W (mapped_target W target) predictions = Returns score
      ∧ r = response_of score.
Proof.
  intros _. split.
  - unfold ModelEvaluation.evaluate_model.
    destruct (read_csv W _) as [test_df|] eqn:Hread; [|discriminate]. simpl.
    destruct (getitem test_df "yr_of_estab") as [yr|] eqn:Hyr; [|discriminate]. simpl.
    destruct (series_rsub _ yr) as [age|] eqn:Hsub; [|discriminate]. simpl.
    destruct (FrameFacts.series_rsub_returns_inv _ _ _ Hsub) as (Hno & ->).
    destruct (drop _ _) as [x|] eqn:Hdrop; [|discriminate]. simpl.
    destruct (getitem _ (TARGET_COLUMN W)) as [target|] eqn:Htarget; [|discriminate].
    simpl.
    destruct (load_object W _) as [model|] eqn:Hload; [|discriminate]. simpl.
    destruct (predict W model x) as [predictions|] eqn:Hpred; [|discriminate]. simpl.
    destruct (f1_score W _ predictions) as [score|] eqn:Hscore; [|discriminate]. simpl.
    intros [= <-].
    rewrite (FrameFacts.drop_returns _ _ (FrameFacts.drop_returns_elem _ _ _ Hdrop))
      in Hdrop.
    injection Hdrop as <-.
    by exists test_df, yr, target, model, predictions, score.
  - intros (test_df & yr & target & model & predictions & score
            & Hread & Hyr & Hno & Htarget & Hload & Hpred & Hscore & ->).
    rewrite (EvaluatorFacts.evaluate_model_prepared W self
               (feature_matrix W test_df yr) target).
    + unfold score_trained_model. rewrite Hload. simpl. rewrite Hpred. simpl.
      unfold mapped_target in Hscore. unfold replace. by rewrite Hscore.
    + exists test_df, yr, (company_age_column W yr).
      split; [done|]. split; [done|].
      split; [by apply FrameFacts.series_rsub_no_text|].
      split; [|exact Htarget].
      apply FrameFacts.drop_returns. eapply FrameFacts.getitem_returns_elem, Htarget.
Qed.

Lemma evaluate_model_returns_iff_witness :
  (0 ≤ CURRENT_YEAR DemoEdge.world < 2 ^ 63)%Z
  ∧ ModelEvaluation.evaluate_model DemoEdge.world (DemoEdge.evaluator "mixed.csv")
    = Returns (response_of 0%float).
Proof.
  assert ((0 ≤ CURRENT_YEAR DemoEdge.world < 2 ^ 63)%Z) as Hyear by (simpl; lia).
  split; [exact Hyear|].
  apply (proj2 (evaluate_model_returns_iff DemoEdge.world
                  (DemoEdge.evaluator "mixed.csv") (response_of 0%float) Hyear)).
  exists DemoEdge.mixed_frame, [VFloat 1999.5%float; VFloat nan; VFloat 2024%float],
    [VStr "Certified"; VStr "Withdrawn"; VStr "Denied"], tt,
    [VInt 0; VInt 0; VInt 0], 0%float.
  split; [reflexivity|]. split; [reflexivity|]. split.
  { intros text Hin.
    apply elem_of_cons in Hin as [Heq|Hin]; [discriminate|].
    apply elem_of_cons in Hin as [Heq|Hin]; [discriminate|].
    apply elem_of_cons in Hin as [Heq|Hin]; [discriminate|].
    by apply elem_of_nil in Hin. }
  repeat split; reflexivity.
Defined.
